(** * MARLIN: clip segmentation and checkpoint classification

    A shallow embedding of [src/marlin_pytorch/model/marlin.py]
    ([Marlin._load_video], [Marlin.from_file], [Marlin.__init__], then
    [Marlin.forward], [Marlin.extract_features], [Marlin.extract_video]
    with its reductions, [Marlin.from_online] and [Marlin.clean_cache]) and
    the properties of it that the specification states or that the code
    shows. *)

From Stdlib Require Import ZArith Lia Ascii String QArith Qcanon.
From stdpp Require Import base numbers list strings gmap.
From Equations Require Import Equations.

Open Scope Z_scope.

(** ** Python values used by the module *)

(** The exceptions the modelled code can raise. *)
Inductive exn : Type :=
| ValueError (msg : string)
| AssertionError
| RuntimeError
| TypeError
| KeyError (key : string)
| IndexError
| AttributeError.

Module Py.

(** [range(start, stop)]. *)
Definition range (start stop : Z) : list Z := seqZ start (stop - start).

(** Number of elements of [range(start, stop, step)] for a non-zero step. *)
Definition range_len (start stop step : Z) : Z :=
  if 0 <? step then
    (if start <? stop then (stop - start - 1) / step + 1 else 0)
  else
    (if stop <? start then (start - stop - 1) / (- step) + 1 else 0).

(** [range(start, stop, step)]: a zero step is a [ValueError]. *)
Definition range_step (start stop step : Z) : exn + list Z :=
  if bool_decide (step = 0) then
    inl (ValueError "range() arg 3 must not be zero")
  else
    inr ((λ i, start + i * step) <$> seqZ 0 (range_len start stop step)).

(** [l[:n]] on a sequence: a negative bound counts from the end. *)
Definition slice_to {A} (l : list A) (n : Z) : list A :=
  if n <? 0 then take (Z.to_nat (Z.of_nat (length l) + n)) l
  else take (Z.to_nat n) l.

(** [collections.deque(maxlen=n)]: [append] drops from the left whatever
    exceeds the capacity (everything, when the capacity is 0). *)
Definition deque_append {A} (maxlen : nat) (deq : list A) (x : A) : list A :=
  let deq := deq ++ [x] in
  drop (length deq - maxlen)%nat deq.

(** [for _ in range(n): deq.append(x)]. *)
Fixpoint deque_append_n {A} (maxlen : nat) (n : nat) (deq : list A) (x : A)
  : list A :=
  match n with
  | O => deq
  | S n => deque_append_n maxlen n (deque_append maxlen deq x) x
  end.

(** [s.startswith(prefix)]. *)
Definition startswith (s prefix : string) : bool := String.prefix prefix s.

(** [s.endswith(suffix)]: some tail of [s] is [suffix]. *)
Fixpoint endswith (s suffix : string) : bool :=
  String.eqb s suffix ||
  match s with
  | EmptyString => false
  | String _ s' => endswith s' suffix
  end.

(** [s.split(sep)] for a one-character separator: the pieces between the
    separators, at least one piece. *)
Fixpoint split (sep : ascii) (s : string) : list string :=
  match s with
  | EmptyString => [EmptyString]
  | String c s' =>
      if Ascii.eqb c sep then EmptyString :: split sep s'
      else match split sep s' with
           | piece :: pieces => String c piece :: pieces
           | [] => [String c EmptyString]
           end
  end.

End Py.

(** Fallible code: a result or the exception raised. *)
Definition result (A : Type) : Type := exn + A.

#[global] Instance result_ret : MRet result := λ A x, inr x.
#[global] Instance result_bind : MBind result := λ A B f m,
  match m with
  | inl e => inl e
  | inr x => f x
  end.

(** ** The clip segmenter, [Marlin._load_video] *)

Module Segmenter.
Section Segmenter.

(** A decoded frame, already converted and scaled to [0,1]. *)
Context {Frame : Type}.

(** A clip is the stack of its frames in temporal order (the
    [permute]/[unsqueeze] of the source only change the layout). *)
Definition Clip : Type := list Frame.

(** What the external collaborators report about the file at
    [video_path]: the frame count of the probe, and the frames a decoder
    delivers (which may be fewer or more than the probe announced). *)
Record Video : Type := mkVideo {
  nb_frames : Z;
  decoded : list Frame
}.

(** The run of a generator: the values it yielded, and the exception
    that ended it, if any. *)
Record Run : Type := mkRun {
  yielded : list Clip;
  raised : option exn
}.

Definition stop : Run := mkRun [] None.
Definition raise (e : exn) : Run := mkRun [] (Some e).
Definition yield (v : Clip) (rest : Run) : Run :=
  mkRun (v :: yielded rest) (raised rest).

(** [read_video(video_path, channel_first=True) / 255]. *)
Definition read_video (video : Video) : list Frame := decoded video.

(** Modelled from the spec: [padding_video] of [..util] is missing from the
    sources. With the "same" method it pads to exactly the target: it
    appends copies of the final decoded frame until the length matches, and
    a video that is longer than the target keeps its first frames only. A
    video without a frame has no final frame to copy and the padding fails,
    as it does for a target below zero. *)
Definition padding_video (video : list Frame) (target : Z)
  : result (list Frame) :=
  match last video with
  | None => inl RuntimeError
  | Some f =>
      if target <? 0 then inl RuntimeError
      else if target <? Z.of_nat (length video) then
        inr (take (Z.to_nat target) video)
      else
        inr (video ++ replicate (Z.to_nat (target - Z.of_nat (length video))) f)
  end.

(** [torch.stack(list(deq))] refuses an empty list. *)
Definition torch_stack (deq : list Frame) : option Clip :=
  match deq with
  | [] => None
  | _ => Some deq
  end.

Section Long.

Variable clip_frames : Z.
Variable sample_rate : Z.
Variable clip_end_indexes : list Z.

Definition maxlen : nat := Z.to_nat clip_frames.

(** The flush after the stream ended:
    [for _ in range(clip_frames // 2): deq.append(last_frame); yield ...].
    When no frame was ever read, [last_frame] is [None] and stacking it
    is a [TypeError]. *)
Fixpoint tail_flush (n : nat) (deq : list Frame) (last_frame : option Frame)
  : Run :=
  match n with
  | O => stop
  | S n =>
      match last_frame with
      | None => raise TypeError
      | Some f =>
          let deq := Py.deque_append maxlen deq f in
          match torch_stack deq with
          | Some v => yield v (tail_flush n deq last_frame)
          | None => raise RuntimeError
          end
      end
  end.

(** [if current_index == 0: for _ in range(clip_frames // 2 - 1): deq.append(frame)] *)
Definition prefill (current_index : Z) (frame : Frame) (deq : list Frame)
  : list Frame :=
  if bool_decide (current_index = 0) then
    Py.deque_append_n maxlen (Z.to_nat (clip_frames / 2 - 1)) deq frame
  else deq.

(** The [while True] loop over [cap.read()], [cap] being the frames the
    stream has not delivered yet. One iteration reads a frame, skips
    [sample_rate - 1] further reads (counting each of them in
    [current_index], also past the end of the stream), appends the frame
    and yields the window when [current_index] is an emission index. *)
Equations? stream_loop (cap : list Frame) (deq : list Frame)
  (current_index : Z) (last_frame : option Frame) : Run
  by wf (length cap) lt :=
stream_loop [] deq current_index last_frame :=
  tail_flush (Z.to_nat (clip_frames / 2)) deq last_frame;
stream_loop (frame :: cap) deq current_index last_frame :=
  let current_index := current_index + 1 in
  let deq := prefill current_index frame deq in
  let cap := drop (Z.to_nat (sample_rate - 1)) cap in
  let current_index := current_index + Z.max 0 (sample_rate - 1) in
  let deq := Py.deque_append maxlen deq frame in
  if bool_decide (current_index ∈ clip_end_indexes) then
    match torch_stack deq with
    | Some v => yield v (stream_loop cap deq current_index (Some frame))
    | None => raise RuntimeError
    end
  else stream_loop cap deq current_index (Some frame).
Proof. all: subst cap; rewrite length_drop; lia. Qed.

End Long.

(** A variable that a fallible call assigns: unbound ([None]) until then. *)
Definition assigned {A} (r : result A) : result (option A) :=
  match r with
  | inl e => inl e
  | inr x => inr (Some x)
  end.

(** [Marlin._load_video], for a model with [clip_frames] frames per clip. *)
Definition load_video (clip_frames : Z) (video : Video)
  (sample_rate stride : Z) : Run :=
  let total_frames := nb_frames video in
  if total_frames <=? clip_frames then
    let video := read_video video in
    match padding_video video clip_frames with
    | inl e => raise e
    | inr v =>
        if bool_decide (Z.of_nat (length v) = clip_frames) then yield v stop
        else raise AssertionError
    end
  else if total_frames <=? clip_frames * sample_rate then
    let video := read_video video in
    match (if Z.of_nat (length video) <? clip_frames
           then assigned (padding_video video clip_frames) else inr None) with
    | inl e => raise e
    | inr v =>
        let v := Py.slice_to video clip_frames in
        yield v stop
    end
  else
    if clip_frames <? 0 then raise (ValueError "maxlen must be non-negative")
    else
      match Py.range_step 0 (total_frames - clip_frames * sample_rate)
              (stride * sample_rate) with
      | inl e => raise e
      | inr clip_start_indexes =>
          let clip_end_indexes :=
            (λ i, i + clip_frames * sample_rate - 1) <$> clip_start_indexes in
          let clip_end_indexes :=
            Py.range (clip_frames / 2) (total_frames + clip_frames / 2) in
          stream_loop clip_frames sample_rate clip_end_indexes
            (decoded video) [] (-1) None
      end.

(** *** Reference definitions for the properties below *)

(** The number of iterations of the loop over a stream of [n] frames: each
    one consumes the frame it reads and the [sample_rate - 1] skipped. *)
Definition iterations (n sample_rate : Z) : Z :=
  (n + sample_rate - 1) / sample_rate.

(** The raw decoder position (skipped frames counted) at the emission test
    of iteration [k], the first iteration being 0. *)
Definition raw_position (sample_rate k : Z) : Z := (k + 1) * sample_rate - 1.

(** Iteration [k] yields a clip: its raw position is an emission index. *)
Definition emits (clip_frames sample_rate total_frames k : Z) : bool :=
  bool_decide (raw_position sample_rate k
               ∈ Py.range (clip_frames / 2) (total_frames + clip_frames / 2)).

(** The iterations, of the first [m], that yield a clip. *)
Definition emitting (clip_frames sample_rate total_frames m : Z) : list Z :=
  filter (λ k, emits clip_frames sample_rate total_frames k = true) (seqZ 0 m).

(** The matches as the specification counts them: the decimated frames,
    numbered from 0 in the order the loop keeps them, whose number is an
    emission index. *)
Definition decimated_matches (clip_frames sample_rate total_frames : Z)
  : list Z :=
  filter (λ j, j ∈ Py.range (clip_frames / 2) (total_frames + clip_frames / 2))
    (seqZ 0 (iterations total_frames sample_rate)).

(** The count the specification gives for a long video: [total_frames]
    index matches plus the tail flush of [clip_frames // 2]. *)
Definition spec_clip_count (clip_frames total_frames : Z) : Z :=
  total_frames + clip_frames / 2.

(** The medium branch as the specification reads it: one clip, the slice
    [video[:clip_frames]] of the bulk-decoded frames. *)
Definition medium_reference (clip_frames : Z) (video : Video) : Run :=
  yield (Py.slice_to (read_video video) clip_frames) stop.

End Segmenter.
End Segmenter.

(** ** What the sliding window holds

    Reference definitions for the clips of the long regime. *)

Module Windows.
Import Segmenter.
Section Windows.

Context {Frame : Type}.

(** The frames the loop keeps: frame [k * sample_rate] of the stream for
    every iteration [k]. *)
Definition sampled (sample_rate : Z) (frames : list Frame) : list Frame :=
  omap (λ k : nat, frames !! (k * Z.to_nat sample_rate)%nat)
    (seq 0 (Z.to_nat (iterations (Z.of_nat (length frames)) sample_rate))).

(** The last [n] elements of a list, or all of it. *)
Definition window (n : nat) (l : list Frame) : list Frame :=
  drop (length l - n) l.

(** Everything appended to the deque up to iteration [k] included: the
    copies of the first frame, then the kept frames. *)
Definition appended (clip_frames sample_rate : Z) (frames : list Frame)
  (k : nat) : list Frame :=
  match frames with
  | [] => []
  | first :: _ =>
      replicate (Z.to_nat (clip_frames / 2 - 1)) first
      ++ take (S k) (sampled sample_rate frames)
  end.

(** The clips of the loop: the window after each emitting iteration. *)
Definition loop_clips (clip_frames sample_rate total_frames : Z)
  (frames : list Frame) : list (list Frame) :=
  (λ k, window (Z.to_nat clip_frames)
          (appended clip_frames sample_rate frames k))
  <$> filter (λ k : nat, emits clip_frames sample_rate total_frames
                           (Z.of_nat k) = true)
        (seq 0 (length (sampled sample_rate frames))).

(** The clips of the tail flush: the window after each further copy of the
    last kept frame. *)
Definition tail_clips (clip_frames sample_rate : Z) (frames : list Frame)
  : list (list Frame) :=
  match last (sampled sample_rate frames) with
  | None => []
  | Some final =>
      (λ j, window (Z.to_nat clip_frames)
              (appended clip_frames sample_rate frames
                 (length (sampled sample_rate frames))
               ++ replicate j final))
      <$> seq 1 (Z.to_nat (clip_frames / 2))
  end.

End Windows.
End Windows.

(** ** Checkpoint classification, [Marlin.from_file] and [Marlin.__init__] *)

Module Checkpoint.
Section Checkpoint.

Context {Tensor Float : Type}.

#[local] Set Warnings "-register-all".

(** What [torch.load] returns: a mapping from names to objects, or a leaf
    (a tensor). A plain state mapping maps parameter names to tensors; a
    ".ckpt" file holds a mapping with a "state_dict" entry among others. *)
Inductive pyobj : Type :=
| PTensor (t : Tensor)
| PDict (items : gmap string pyobj).

(** [obj[key]]. *)
Definition getitem (obj : pyobj) (key : string) : result pyobj :=
  match obj with
  | PDict items =>
      match items !! key with
      | Some v => inr v
      | None => inl (KeyError key)
      end
  | PTensor _ => inl IndexError
  end.

(** [obj.keys()]. *)
Definition keys (obj : pyobj) : result (list string) :=
  match obj with
  | PDict items => inr (map_to_list items).*1
  | PTensor _ => inl AttributeError
  end.

(** [del obj[key]]. *)
Definition delitem (obj : pyobj) (key : string) : result pyobj :=
  match obj with
  | PDict items =>
      match items !! key with
      | Some _ => inr (PDict (delete key items))
      | None => inl (KeyError key)
      end
  | PTensor _ => inl TypeError
  end.

(** [for key in ks: del obj[key]]. *)
Fixpoint delitems (obj : pyobj) (ks : list string) : result pyobj :=
  match ks with
  | [] => inr obj
  | key :: ks => obj ← delitem obj key; delitems obj ks
  end.

(** The configuration [resolve_config] returns. *)
Record Config : Type := mkConfig {
  img_size : Z;
  patch_size : Z;
  n_frames : Z;
  encoder_embed_dim : Z;
  encoder_depth : Z;
  encoder_num_heads : Z;
  decoder_embed_dim : Z;
  decoder_depth : Z;
  decoder_num_heads : Z;
  mlp_ratio : Float;
  qkv_bias : bool;
  qk_scale : option Float;
  drop_rate : Float;
  attn_drop_rate : Float;
  norm_layer : string;
  init_values : Float;
  tubelet_size : Z
}.

(** The sub-modules are the classes of [.encoder], [.decoder] and
    [torch.nn]; a constructed one is known by its constructor arguments. *)
Record MarlinEncoder : Type := mkEncoder {
  enc_img_size : Z;
  enc_patch_size : Z;
  enc_n_frames : Z;
  enc_embed_dim : Z;
  enc_depth : Z;
  enc_num_heads : Z;
  enc_mlp_ratio : Float;
  enc_qkv_bias : bool;
  enc_qk_scale : option Float;
  enc_drop_rate : Float;
  enc_attn_drop_rate : Float;
  enc_norm_layer : string;
  enc_init_values : Float;
  enc_tubelet_size : Z
}.

Record MarlinDecoder : Type := mkDecoder {
  dec_img_size : Z;
  dec_patch_size : Z;
  dec_embed_dim : Z;
  dec_depth : Z;
  dec_num_heads : Z;
  dec_mlp_ratio : Float;
  dec_qkv_bias : bool;
  dec_qk_scale : option Float;
  dec_drop_rate : Float;
  dec_attn_drop_rate : Float;
  dec_norm_layer : string;
  dec_init_values : Float;
  dec_tubelet_size : Z
}.

Record Linear : Type := mkLinear {
  in_features : Z;
  out_features : Z;
  bias : bool
}.

(** A [Marlin] module: the attributes [__init__] sets, and the state
    mapping [load_state_dict] was given. *)
Record Marlin : Type := mkMarlin {
  ffmpeg_dir : option string;
  encoder : MarlinEncoder;
  as_feature_extractor : bool;
  clip_frames : Z;
  enc_dec_proj : option Linear;
  decoder : option MarlinDecoder;
  state : gmap string pyobj
}.

(** [Marlin.__init__]. *)
Definition init (img_size patch_size n_frames encoder_embed_dim encoder_depth
    encoder_num_heads decoder_embed_dim decoder_depth decoder_num_heads : Z)
    (mlp_ratio : Float) (qkv_bias : bool) (qk_scale : option Float)
    (drop_rate attn_drop_rate : Float) (norm_layer : string)
    (init_values : Float) (tubelet_size : Z) (as_feature_extractor : bool)
    (ffmpeg_dir : option string) : Marlin :=
  let encoder :=
    mkEncoder img_size patch_size n_frames encoder_embed_dim encoder_depth
      encoder_num_heads mlp_ratio qkv_bias qk_scale drop_rate attn_drop_rate
      norm_layer init_values tubelet_size in
  if as_feature_extractor then
    mkMarlin ffmpeg_dir encoder as_feature_extractor n_frames None None ∅
  else
    let decoder :=
      mkDecoder img_size patch_size decoder_embed_dim decoder_depth
        decoder_num_heads mlp_ratio qkv_bias qk_scale drop_rate attn_drop_rate
        norm_layer init_values tubelet_size in
    let enc_dec_proj := mkLinear encoder_embed_dim decoder_embed_dim false in
    mkMarlin ffmpeg_dir encoder as_feature_extractor n_frames
      (Some enc_dec_proj) (Some decoder) ∅.

Section FromFile.

(** The collaborators of [from_file]: the object [torch.load] unpickles
    from a path, the configuration registry of [..config], the names of
    the parameters and buffers of the sub-modules (classes of [.encoder]
    and [.decoder]), and whether the tensors of a state mapping have the
    sizes those of a module have. *)
Variable torch_load : string → result pyobj.
Variable resolve_config : string → result Config.
Variable encoder_state_names : MarlinEncoder → list string.
Variable decoder_state_names : MarlinDecoder → list string.
Variable state_dict_fits : Marlin → gmap string pyobj → bool.

(** The names of a [torch.nn.Linear]: its weight, and its bias if it has
    one. *)
Definition linear_state_names (proj : Linear) : list string :=
  if bias proj then ["weight"; "bias"] else ["weight"].

(** [model.state_dict().keys()]: [Marlin] has no parameter of its own, and
    [torch] names those of a sub-module after the attribute that holds it.
    An attribute that is [None] contributes nothing. *)
Definition state_names (model : Marlin) : list string :=
  (String.append "encoder." <$> encoder_state_names (encoder model))
  ++ match decoder model with
     | Some dec => String.append "decoder." <$> decoder_state_names dec
     | None => []
     end
  ++ match enc_dec_proj model with
     | Some proj => String.append "enc_dec_proj." <$> linear_state_names proj
     | None => []
     end.

(** [model.load_state_dict(state_dict)], strict as it is by default: a
    name of the module that the mapping lacks, a name of the mapping that
    the module lacks, or a tensor of another size is a [RuntimeError]. *)
Definition load_state_dict (model : Marlin) (state_dict : pyobj)
  : result Marlin :=
  match state_dict with
  | PDict items =>
      let expected := state_names model in
      let missing_keys := filter (λ k, items !! k = None) expected in
      let unexpected_keys :=
        filter (λ k, k ∉ expected) (map_to_list items).*1 in
      if bool_decide (missing_keys = [] ∧ unexpected_keys = [])
         && state_dict_fits model items then
        inr (mkMarlin (ffmpeg_dir model) (encoder model)
               (as_feature_extractor model) (clip_frames model)
               (enc_dec_proj model) (decoder model) items)
      else inl RuntimeError
  | PTensor _ => inl TypeError
  end.

(** The first statement of [from_file]: the state mapping taken from the
    file, by the extension of [path]. *)
Definition state_mapping (path : string) : result pyobj :=
  if Py.endswith path ".pt" then
    torch_load path
  else if Py.endswith path ".ckpt" then
    loaded ← torch_load path;
    state_dict ← getitem loaded "state_dict";
    ks ← keys state_dict;
    let discriminator_keys :=
      filter (λ k, Py.startswith k "discriminator" = true) ks in
    delitems state_dict discriminator_keys
  else
    match last (Py.split "." path) with
    | Some ext => inl (ValueError ("Unsupported file type: " +:+ ext))
    | None => inl IndexError
    end.

(** The [for ... else] over the keys: is the checkpoint encoder only? *)
Definition scan_decoder (ks : list string) : bool :=
  negb (existsb (λ key, Py.startswith key "decoder.") ks).

(** [Marlin.from_file]. *)
Definition from_file (model_name path : string) : result Marlin :=
  state_dict ← state_mapping path;
  ks ← keys state_dict;
  let as_feature_extractor := scan_decoder ks in
  config ← resolve_config model_name;
  let model :=
    init (img_size config) (patch_size config) (n_frames config)
      (encoder_embed_dim config) (encoder_depth config)
      (encoder_num_heads config) (decoder_embed_dim config)
      (decoder_depth config) (decoder_num_heads config)
      (mlp_ratio config) (qkv_bias config) (qk_scale config)
      (drop_rate config) (attn_drop_rate config) (norm_layer config)
      (init_values config) (tubelet_size config) as_feature_extractor None in
  load_state_dict model state_dict.

End FromFile.

End Checkpoint.
End Checkpoint.

Import Segmenter Windows Checkpoint.

(** ** Using the model: [forward], [extract_features], [extract_video] *)

Module Inference.
Section Inference.

(** Tensors (activations, masks, features and the values of a state
    mapping), frames, and the state of the process outside the model (the
    face detector and its files). *)
Context {Tensor Float Frame World : Type}.

#[local] Abbreviation Marlin := (Marlin (Tensor:=Tensor) (Float:=Float)).
#[local] Abbreviation weights := (gmap string (pyobj (Tensor:=Tensor))).

(** The calls into the sub-modules, each with the weights that were
    loaded: [self.encoder(x, mask)], [self.enc_dec_proj(x)],
    [self.decoder(x, mask)] and [self.encoder.extract_features]. *)
Variable encoder_call :
  MarlinEncoder (Float:=Float) → weights → Tensor → Tensor → result Tensor.
Variable linear_call : Linear → weights → Tensor → result Tensor.
Variable decoder_call :
  MarlinDecoder (Float:=Float) → weights → Tensor → Tensor → result Tensor.
Variable encoder_extract_features :
  MarlinEncoder (Float:=Float) → weights → Clip (Frame:=Frame) → bool
  → result Tensor.

(** [Marlin.forward]: calling an attribute that is [None] is a
    [TypeError]. *)
Definition forward (self : Marlin) (x : Tensor) (mask : option Tensor)
  : result Tensor :=
  if as_feature_extractor self then inl RuntimeError
  else
    match mask with
    | None => inl AssertionError
    | Some mask =>
        x ← encoder_call (encoder self) (state self) x mask;
        x ← match enc_dec_proj self with
            | Some proj => linear_call proj (state self) x
            | None => inl TypeError
            end;
        match decoder self with
        | Some dec => decoder_call dec (state self) x mask
        | None => inl TypeError
        end
    end.

(** [Marlin.extract_features]: the same call with or without gradients. *)
Definition extract_features (self : Marlin) (training : bool)
  (x : Clip (Frame:=Frame)) (keep_seq : bool) : result Tensor :=
  if training then
    encoder_extract_features (encoder self) (state self) x (negb keep_seq)
  else
    encoder_extract_features (encoder self) (state self) x (negb keep_seq).

(** The face detector of [..face_detector] and [Marlin._crop_face]: whether
    it was initialised, its initialisation for a device ([None] standing
    for the device of the model), and the crop of a clip. *)
Variable detector_inited : World → bool.
Variable detector_init : World → option string → result World.
Variable crop_face_frames : World → Clip (Frame:=Frame) → result (Clip (Frame:=Frame)).

(** [v.shape[3:]], the height and width of a clip. *)
Variable spatial : Clip (Frame:=Frame) → Z * Z.

(** [torch.cat] of a non-empty list, and the reductions along the first
    axis, [features.mean(dim=0)] and [features.max(dim=0)[0]]. *)
Variable cat : list Tensor → result Tensor.
Variable mean_dim0 : Tensor → Tensor.
Variable max_dim0 : Tensor → Tensor.

(** [torch.cat(features)] refuses an empty list. *)
Definition torch_cat (features : list Tensor) : result Tensor :=
  match features with
  | [] => inl RuntimeError
  | _ => cat features
  end.

(** The body of the [for v in self._load_video(...)] loop, over the clips
    the generator yields before it ends. *)
Fixpoint extract_clips (self : Marlin) (crop_face keep_seq : bool)
  (detector_device : option string) (world : World)
  (clips : list (Clip (Frame:=Frame))) (features : list Tensor)
  : result (list Tensor) :=
  match clips with
  | [] => inr features
  | v :: clips =>
      '(world, v) ←
        (if crop_face then
           world ← (if negb (detector_inited world)
                    then detector_init world detector_device
                    else inr world);
           v ← crop_face_frames world v;
           inr (world, v)
         else inr (world, v));
      if bool_decide (spatial v = (224, 224)) then
        feature ← extract_features self false v keep_seq;
        extract_clips self crop_face keep_seq detector_device world clips
          (features ++ [feature])
      else inl AssertionError
  end.

(** The end of [extract_video]: the reduction asked for. *)
Definition reduce (reduction : string) (features : Tensor) : Tensor :=
  if String.eqb reduction "mean" then mean_dim0 features
  else if String.eqb reduction "max" then max_dim0 features
  else features.

(** [Marlin.extract_video]. The exception that ends the generator comes
    after the clips yielded before it were processed. *)
Definition extract_video (self : Marlin) (world : World)
  (video : Video (Frame:=Frame)) (crop_face : bool) (sample_rate stride : Z)
  (reduction : string) (keep_seq : bool) (detector_device : option string)
  : result Tensor :=
  let run := load_video (clip_frames self) video sample_rate stride in
  features ← extract_clips self crop_face keep_seq detector_device world
               (yielded run) [];
  match raised run with
  | Some e => inl e
  | None =>
      features ← torch_cat features;
      inr (reduce reduction features)
  end.

End Inference.
End Inference.

(** ** Feature tensors and their reductions

    The features of [extract_video] as arrays of exact numbers (rounding is
    not modelled): a pooled feature has one row, [torch.cat] stacks the
    rows of its arguments, and the reductions run along the first axis.
    Three ranks are enough for that: what [features.mean(dim=0)] makes of a
    batch of rows is one row, and of one row a number. *)

Module Reductions.

Inductive tensor : Type :=
| Scalar (x : Qc)
| Vector (v : list Qc)
| Matrix (rows : list (list Qc)).

(** The rows of tensors of rank 2, the entries of tensors of rank 1. *)
Fixpoint rows_of (ts : list tensor) : result (list (list Qc)) :=
  match ts with
  | [] => inr []
  | Matrix rows :: ts => rest ← rows_of ts; inr (rows ++ rest)
  | _ :: _ => inl RuntimeError
  end.

Fixpoint entries_of (ts : list tensor) : result (list Qc) :=
  match ts with
  | [] => inr []
  | Vector v :: ts => rest ← entries_of ts; inr (v ++ rest)
  | _ :: _ => inl RuntimeError
  end.

(** [torch.cat(tensors)], along the first axis: the tensors have one rank,
    not 0, and rows of one length. *)
Definition cat (ts : list tensor) : result tensor :=
  match ts with
  | Matrix _ :: _ =>
      rows ← rows_of ts;
      match rows with
      | [] => inr (Matrix [])
      | row :: _ =>
          if forallb (λ r, Nat.eqb (length r) (length row)) rows
          then inr (Matrix rows) else inl RuntimeError
      end
  | Vector _ :: _ => v ← entries_of ts; inr (Vector v)
  | _ => inl RuntimeError
  end.

Definition total (v : list Qc) : Qc := foldr Qcplus 0%Qc v.

Definition Qcmax (x y : Qc) : Qc := if decide (x ≤ y)%Qc then y else x.

(** The number of elements along the first axis, as a number to divide
    by. *)
Definition count {A} (l : list A) : Qc := Qc_of_Z (Z.of_nat (length l)).

(** [features.mean(dim=0)]: the mean of every column of a batch, the mean
    of a row. Of a tensor without an element [torch] has no number to give
    (not-a-number for the mean, an error for the maximum): the batches of
    [extract_video] have a row for every clip, and the model gives the
    empty row, or 0, for the others. *)
Definition mean_dim0 (features : tensor) : tensor :=
  match features with
  | Matrix (row :: rows) =>
      Vector ((λ x, x / count (row :: rows))%Qc
              <$> foldl (zip_with Qcplus) row rows)
  | Matrix [] => Vector []
  | Vector v => Scalar (total v / count v)%Qc
  | Scalar x => Scalar x
  end.

(** [features.max(dim=0)[0]]: the greatest entry of every column of a
    batch, the greatest entry of a row. *)
Definition max_dim0 (features : tensor) : tensor :=
  match features with
  | Matrix (row :: rows) => Vector (foldl (zip_with Qcmax) row rows)
  | Matrix [] => Vector []
  | Vector (x :: v) => Scalar (foldl Qcmax x v)
  | Vector [] => Scalar 0%Qc
  | Scalar x => Scalar x
  end.

(** A batch of pooled features, one tensor of one row for each clip. *)
Definition pooled (rows : list (list Qc)) : list tensor :=
  (λ row, Matrix [row]) <$> rows.

(** A row dominates another when each of its entries is at least the
    entry of the other at the same place. *)
Definition dominates (d row : list Qc) : Prop := Forall2 Qcle row d.

End Reductions.

(** ** The checkpoint cache: [from_online] and [clean_cache] *)

Module Online.
Section Online.

(** Tensors, floats, and the state of the file system. *)
Context {Tensor Float FS : Type}.

#[local] Abbreviation pyobj := (pyobj (Tensor:=Tensor)).
#[local] Abbreviation Marlin := (Marlin (Tensor:=Tensor) (Float:=Float)).

(** The registry of [..config]: the configuration of a model name, and for
    a [Downloadable] one its [full_model_url] and [encoder_model_url]. *)
Variable resolve_config : string → result (Config (Float:=Float)).
Variable downloadable : Config (Float:=Float) → option (string * string).

(** The file system and the network: [Path.mkdir(exist_ok=True)], the
    string of [path / name], [Path.exists], [urlretrieve(url, filename)],
    [torch.load] of a file, [shutil.rmtree]. *)
Variable mkdir_exist_ok : FS → string → result FS.
Variable joinpath : string → string → string.
Variable path_exists : FS → string → bool.
Variable urlretrieve : FS → string → string → result FS.
Variable torch_load : FS → string → result pyobj.
Variable rmtree : FS → string → result FS.

(** What [load_state_dict] needs to know of the sub-modules. *)
Variable encoder_state_names : MarlinEncoder (Float:=Float) → list string.
Variable decoder_state_names : MarlinDecoder (Float:=Float) → list string.
Variable state_dict_fits : Marlin → gmap string pyobj → bool.

(** [f"{model_name}.{'full' if full_model else 'encoder'}.pt"]. *)
Definition cache_file_name (model_name : string) (full_model : bool)
  : string :=
  model_name +:+ "." +:+ (if full_model then "full" else "encoder") +:+ ".pt".

(** [Marlin.from_online]: the model, and the file system it leaves. *)
Definition from_online (fs : FS) (model_name : string) (full_model : bool)
  : result (FS * Marlin) :=
  config ← resolve_config model_name;
  match downloadable config with
  | None =>
      inl (ValueError ("Model " +:+ model_name +:+ " is not downloadable."))
  | Some (full_model_url, encoder_model_url) =>
      let url := if full_model then full_model_url else encoder_model_url in
      let path := ".marlin" in
      fs ← mkdir_exist_ok fs path;
      let file := joinpath path (cache_file_name model_name full_model) in
      fs ← (if negb (path_exists fs file) then urlretrieve fs url file
            else inr fs);
      model ← from_file (torch_load fs) resolve_config encoder_state_names
                decoder_state_names state_dict_fits model_name file;
      inr (fs, model)
  end.

(** [Marlin.clean_cache]: the file system it leaves, and what it prints. *)
Definition clean_cache (fs : FS) (verbose : bool)
  : result (FS * list string) :=
  let path := ".marlin" in
  if path_exists fs path then
    fs ← rmtree fs path;
    if verbose then inr (fs, ["Marlin checkpoints cache cleaned."])
    else inr (fs, [])
  else inr (fs, []).

End Online.
End Online.

(** ** Concrete inputs

    Frames and tensors are numbered; a video of [n] frames has the frames
    [0 .. n-1], all of them decoded unless said otherwise. *)

Module Examples.

Definition video_of (n : Z) : Video := mkVideo n (seqZ 0 n).

(** A video announced with 20 frames of which the decoder delivers 10. *)
Definition under_reported : Video := mkVideo 20 (seqZ 0 10).

(** The configuration of the base model. *)
Definition base_config : Config (Float:=Z) :=
  mkConfig 224 16 16 768 12 12 384 4 6 4 true None 0 0 "LayerNorm" 0 2.

Definition registry (model_name : string) : result (Config (Float:=Z)) :=
  inr base_config.

(** The encoder has one parameter, [x], and the decoder one, [w]. *)
Definition encoder_names (enc : MarlinEncoder (Float:=Z)) : list string :=
  ["x"].
Definition decoder_names (dec : MarlinDecoder (Float:=Z)) : list string :=
  ["w"].

(** Tensors of every size fit. *)
Definition fits_all (model : Marlin (Tensor:=Z) (Float:=Z))
  (items : gmap string (pyobj (Tensor:=Z))) : bool := true.

(** An encoder-only state mapping that still has a discriminator entry. *)
Definition trained_items : gmap string (pyobj (Tensor:=Z)) :=
  <["encoder.x" := PTensor 1]> (<["discriminator.y" := PTensor 2]> ∅).

Definition encoder_items : gmap string (pyobj (Tensor:=Z)) :=
  <["encoder.x" := PTensor 1]> ∅.

(** A full state mapping. *)
Definition full_items : gmap string (pyobj (Tensor:=Z)) :=
  <["encoder.x" := PTensor 1]>
    (<["decoder.w" := PTensor 3]> (<["enc_dec_proj.weight" := PTensor 4]> ∅)).

(** File systems: what [torch.load] finds at each path. *)
Definition raw_file (items : gmap string (pyobj (Tensor:=Z)))
  (path : string) : result (pyobj (Tensor:=Z)) := inr (PDict items).

Definition nested_file (items : gmap string (pyobj (Tensor:=Z)))
  (path : string) : result (pyobj (Tensor:=Z)) :=
  inr (PDict (<["state_dict" := PDict items]> (<["epoch" := PTensor 7]> ∅))).

Definition base_encoder : MarlinEncoder (Float:=Z) :=
  mkEncoder 224 16 16 768 12 12 4 true None 0 0 "LayerNorm" 0 2.

Definition base_decoder : MarlinDecoder (Float:=Z) :=
  mkDecoder 224 16 384 4 6 4 true None 0 0 "LayerNorm" 0 2.

Definition encoder_only (items : gmap string (pyobj (Tensor:=Z)))
  : Marlin (Tensor:=Z) (Float:=Z) :=
  mkMarlin None base_encoder true 16 None None items.

Definition full_model (items : gmap string (pyobj (Tensor:=Z)))
  : Marlin (Tensor:=Z) (Float:=Z) :=
  mkMarlin None base_encoder false 16 (Some (mkLinear 768 384 false))
    (Some base_decoder) items.

End Examples.

(** ** More concrete inputs

    Stand-ins for the collaborators: tensors are numbers, the feature of a
    clip is the sum of its frames, the file system maps paths to the
    objects their files hold. *)

Module MoreExamples.
Import Examples.

(** A video announced with 40 frames whose stream delivers none. *)
Definition no_frames : Video (Frame:=Z) := mkVideo 40 [].

(** A ".ckpt" file without a "state_dict" entry. *)
Definition bare_file (path : string) : result (pyobj (Tensor:=Z)) :=
  inr (PDict (<["epoch" := PTensor 7]> ∅)).

Definition demo_encoder_call (enc : MarlinEncoder (Float:=Z))
  (w : gmap string (pyobj (Tensor:=Z))) (x mask : Z) : result Z :=
  inr (x + mask).

Definition demo_linear_call (proj : Linear)
  (w : gmap string (pyobj (Tensor:=Z))) (x : Z) : result Z :=
  inr (2 * x).

Definition demo_decoder_call (dec : MarlinDecoder (Float:=Z))
  (w : gmap string (pyobj (Tensor:=Z))) (x mask : Z) : result Z :=
  inr (x - mask).

Definition demo_extract (enc : MarlinEncoder (Float:=Z))
  (w : gmap string (pyobj (Tensor:=Z))) (v : list Z) (pool : bool)
  : result Z :=
  inr (foldr Z.add 0 v).

(** The detector is initialised or not. *)
Definition demo_inited (world : bool) : bool := world.
Definition demo_init (world : bool) (device : option string) : result bool :=
  inr true.
Definition demo_crop (world : bool) (v : list Z) : result (list Z) := inr v.

Definition full_size (v : list Z) : Z * Z := (224, 224).
Definition small_size (v : list Z) : Z * Z := (112, 112).

Definition demo_cat (features : list Z) : result Z :=
  inr (foldr Z.add 0 features).
Definition demo_mean (features : Z) : Z := features.
Definition demo_max (features : Z) : Z := features.

Definition demo_downloadable (config : Config (Float:=Z))
  : option (string * string) :=
  Some ("https://host/full.pt", "https://host/encoder.pt").

Definition demo_mkdir (fs : gmap string (pyobj (Tensor:=Z))) (path : string)
  : result (gmap string (pyobj (Tensor:=Z))) := inr fs.

Definition demo_joinpath (dir name : string) : string :=
  dir +:+ "/" +:+ name.

Definition demo_exists (fs : gmap string (pyobj (Tensor:=Z))) (path : string)
  : bool :=
  if String.eqb path ".marlin" then negb (Nat.eqb (size fs) 0)
  else bool_decide (is_Some (fs !! path)).

(** Every download fetches the encoder mapping. *)
Definition demo_urlretrieve (fs : gmap string (pyobj (Tensor:=Z)))
  (url file : string) : result (gmap string (pyobj (Tensor:=Z))) :=
  inr (<[file := PDict encoder_items]> fs).

(** A file that holds a mapping loads; anything else does not. *)
Definition demo_load (fs : gmap string (pyobj (Tensor:=Z))) (path : string)
  : result (pyobj (Tensor:=Z)) :=
  match fs !! path with
  | Some (PDict items) => inr (PDict items)
  | _ => inl RuntimeError
  end.

Definition demo_rmtree (fs : gmap string (pyobj (Tensor:=Z))) (path : string)
  : result (gmap string (pyobj (Tensor:=Z))) := inr ∅.

Definition cached_fs : gmap string (pyobj (Tensor:=Z)) :=
  <[".marlin/marlin_vit_base.encoder.pt" := PDict encoder_items]> ∅.

Definition corrupt_fs : gmap string (pyobj (Tensor:=Z)) :=
  <[".marlin/marlin_vit_base.encoder.pt" := PTensor 0]> ∅.

(** Features as rows: the feature of a clip is the row of the sum of its
    frames and their number. A model of 2 frames per clip, and a video of
    three times the same frame. *)
Definition row_extract (enc : MarlinEncoder (Float:=Z))
  (w : gmap string (pyobj (Tensor:=Reductions.tensor))) (v : list Z)
  (pool : bool) : result Reductions.tensor :=
  inr (Reductions.Matrix
         [[Qc_of_Z (foldr Z.add 0 v); Qc_of_Z (Z.of_nat (length v))]]).

Definition pair_model : Marlin (Tensor:=Reductions.tensor) (Float:=Z) :=
  mkMarlin None base_encoder true 2 None None ∅.

Definition still_video : Video (Frame:=Z) := mkVideo 3 [7; 7; 7].

End MoreExamples.

Import Inference Online.

(** * Properties of the clip segmenter *)

Section SegmenterFacts.

Context {Frame : Type}.
Implicit Types (deq cap : list Frame) (f frame : Frame) (video : Video (Frame:=Frame)).

Lemma length_deque_append (m : nat) deq f :
  length (Py.deque_append m deq f) = (S (length deq) `min` m)%nat.
Proof.
  unfold Py.deque_append. rewrite length_drop, length_app.
  change (length [f]) with 1%nat. lia.
Qed.

Lemma torch_stack_deque_append cl deq f :
  0 < cl →
  torch_stack (Py.deque_append (maxlen cl) deq f)
  = Some (Py.deque_append (maxlen cl) deq f).
Proof.
  intros Hcl.
  pose proof (length_deque_append (maxlen cl) deq f) as Hlen.
  destruct (Py.deque_append (maxlen cl) deq f); [|done].
  unfold maxlen in Hlen. change (length []) with 0%nat in Hlen. lia.
Qed.

Lemma tail_flush_run cl (n : nat) deq f :
  0 < cl →
  raised (tail_flush cl n deq (Some f)) = None
  ∧ length (yielded (tail_flush cl n deq (Some f))) = n.
Proof.
  intros Hcl. revert deq.
  induction n as [|n IH]; intros deq; simpl; [done|].
  rewrite torch_stack_deque_append by done. simpl.
  destruct (IH (Py.deque_append (maxlen cl) deq f)) as [-> ->]. done.
Qed.

Lemma iterations_0 sr : 0 < sr → iterations 0 sr = 0.
Proof. intros. unfold iterations. apply Z.div_small. lia. Qed.

(** One iteration consumes [sample_rate] frames, or what is left. *)
Lemma iterations_step (n : nat) sr :
  0 < sr →
  iterations (Z.of_nat (S n)) sr
  = 1 + iterations (Z.of_nat (n - Z.to_nat (sr - 1))) sr.
Proof.
  intros Hsr. unfold iterations.
  destruct (decide (Z.of_nat n < sr - 1)) as [Hlt|Hge].
  - replace (Z.of_nat (n - Z.to_nat (sr - 1))) with 0 by lia.
    rewrite (Z.div_small (0 + sr - 1)) by lia.
    replace (Z.of_nat (S n) + sr - 1) with (Z.of_nat n + 1 * sr) by lia.
    rewrite Z.div_add by lia. rewrite Z.div_small; lia.
  - replace (Z.of_nat (S n) + sr - 1)
      with (Z.of_nat (n - Z.to_nat (sr - 1)) + sr - 1 + 1 * sr) by lia.
    rewrite Z.div_add by lia. lia.
Qed.

Lemma iterations_nonneg n sr : 0 < sr → 0 ≤ n → 0 ≤ iterations n sr.
Proof. intros. unfold iterations. apply Z.div_pos; lia. Qed.

(** The loop from iteration [k] on: no exception, and one clip for each
    remaining iteration whose raw position is an emission index, then the
    tail flush. *)
Lemma stream_loop_count cl sr T :
  0 < cl → 0 < sr →
  ∀ (n : nat) cap deq k lf,
    length cap = n → cap ≠ [] ∨ is_Some lf →
    let r := stream_loop cl sr (Py.range (cl / 2) (T + cl / 2))
               cap deq (raw_position sr (k - 1)) lf in
    raised r = None
    ∧ length (yielded r)
      = (length (filter (λ j, emits cl sr T j = true)
                   (seqZ k (iterations (Z.of_nat n) sr)))
         + Z.to_nat (cl / 2))%nat.
Proof.
  intros Hcl Hsr n. induction n as [n IH] using lt_wf_ind.
  intros [|frame cap] deq k lf Hn Hlf; simpl in Hn; subst n.
  - destruct Hlf as [|[f ->]]; [done|].
    rewrite stream_loop_equation_1.
    rewrite iterations_0 by done. simpl.
    apply tail_flush_run; done.
  - rewrite stream_loop_equation_2. cbv zeta.
    rewrite torch_stack_deque_append by done.
    replace (raw_position sr (k - 1) + 1 + 0 `max` (sr - 1))
      with (raw_position sr (k + 1 - 1))
      by (unfold raw_position; lia).
    rewrite iterations_step by done.
    rewrite seqZ_cons by (pose proof (iterations_nonneg
      (Z.of_nat (length cap - Z.to_nat (sr - 1))) sr); lia).
    rewrite filter_cons.
    replace (Z.succ k) with (k + 1) by lia.
    replace (Z.pred (1 + iterations (Z.of_nat (length cap - Z.to_nat (sr - 1))) sr))
      with (iterations (Z.of_nat (length cap - Z.to_nat (sr - 1))) sr) by lia.
    pose proof (λ d, IH (length cap - Z.to_nat (sr - 1))%nat ltac:(lia)
                 (drop (Z.to_nat (sr - 1)) cap) d (k + 1) (Some frame)
                 (length_drop _ _)
                 (or_intror (mk_is_Some _ _ eq_refl))) as IH'.
    cbv zeta in IH'.
    destruct (IH' (Py.deque_append (maxlen cl)
                     (prefill cl (raw_position sr (k - 1) + 1) frame deq)
                     frame)) as [Hr Hy].
    unfold emits at 1.
    replace (k + 1 - 1) with k in * by lia.
    case_bool_decide as Hin.
    + rewrite decide_True by (unfold emits; by apply bool_decide_eq_true).
      simpl. rewrite Hr, Hy. done.
    + rewrite decide_False by (unfold emits; by rewrite bool_decide_eq_true).
      rewrite Hr, Hy. done.
Qed.

(** Counting the integers of a window that fall into an interval. *)
Lemma length_filter_seqZ_between (P : Z → Prop) `{!∀ j, Decision (P j)} a b :
  (∀ j, P j ↔ a ≤ j < b) →
  ∀ (n : nat) k,
    Z.of_nat (length (filter P (seqZ k (Z.of_nat n))))
    = 0 `max` ((k + Z.of_nat n) `min` b - k `max` a).
Proof.
  intros HP n. induction n as [|n IH]; intros k.
  - simpl. lia.
  - rewrite seqZ_cons by lia. rewrite filter_cons.
    replace (Z.pred (Z.of_nat (S n))) with (Z.of_nat n) by lia.
    specialize (IH (Z.succ k)).
    destruct (decide (P k)) as [Hk|Hk]; rewrite HP in Hk; simpl; lia.
Qed.

(** Iteration [k] emits exactly when [k] lies between the two quotients. *)
Lemma emits_iff cl sr T k :
  0 < sr →
  emits cl sr T k = true ↔ cl / 2 / sr ≤ k < (T + cl / 2) / sr.
Proof.
  intros Hsr. unfold emits, raw_position, Py.range.
  rewrite bool_decide_eq_true, elem_of_seqZ.
  pose proof (Z.div_mod (cl / 2) sr ltac:(lia)) as Ha.
  pose proof (Z.mod_pos_bound (cl / 2) sr Hsr) as Ha'.
  pose proof (Z.div_mod (T + cl / 2) sr ltac:(lia)) as Hb.
  pose proof (Z.mod_pos_bound (T + cl / 2) sr Hsr) as Hb'.
  nia.
Qed.

Lemma length_emitting cl sr T m :
  0 < sr → 0 ≤ m →
  Z.of_nat (length (emitting cl sr T m))
  = 0 `max` (m `min` ((T + cl / 2) / sr) - 0 `max` (cl / 2 / sr)).
Proof.
  intros Hsr Hm. unfold emitting.
  rewrite <- (Z2Nat.id m) at 1 by done.
  rewrite (length_filter_seqZ_between _ (cl / 2 / sr) ((T + cl / 2) / sr))
    by (intros j; by apply emits_iff).
  rewrite Z2Nat.id by done. done.
Qed.

(** *** Short videos *)

Lemma padding_video_frameless target :
  padding_video (@nil Frame) target = inl RuntimeError.
Proof. done. Qed.

(** The padding of a video that has a frame: its frames, then copies of
    the last one, exactly [target] frames in all. *)
Lemma padding_video_inr (video : list Frame) target :
  video ≠ [] →
  0 ≤ target →
  ∃ f, last video = Some f
    ∧ padding_video video target
      = inr (take (Z.to_nat target)
               (video ++ replicate
                  (Z.to_nat (target - Z.of_nat (length video))) f)).
Proof.
  intros Hne Htarget. unfold padding_video.
  destruct (last video) as [f|] eqn:Hlast.
  2:{ by apply last_None in Hlast. }
  exists f. split; [done|].
  rewrite (proj2 (Z.ltb_ge target 0)) by done.
  destruct (Z.ltb_spec target (Z.of_nat (length video))) as [Hlt|Hge].
  - replace (Z.to_nat (target - Z.of_nat (length video))) with 0%nat by lia.
    simpl. by rewrite app_nil_r.
  - rewrite take_ge; [done|]. rewrite length_app, length_replicate. lia.
Qed.


(** *** Medium videos *)

(** C4. Between [clip_frames] and [clip_frames * sample_rate] frames, with
    at least [clip_frames] of them decoded, the one clip is the first
    [clip_frames] decoded frames, none of them skipped. *)
Theorem medium_video_first_frames cl video sr stride :
  0 < cl →
  cl < nb_frames video →
  nb_frames video ≤ cl * sr →
  cl ≤ Z.of_nat (length (decoded video)) →
  load_video cl video sr stride
  = mkRun [take (Z.to_nat cl) (decoded video)] None
  ∧ Z.of_nat (length (take (Z.to_nat cl) (decoded video))) = cl.
Proof.
  intros Hcl Hlt Hle Hdec. unfold load_video.
  rewrite (proj2 (Z.leb_gt _ _) Hlt), (proj2 (Z.leb_le _ _) Hle).
  cbv zeta. unfold Py.slice_to, read_video.
  rewrite (proj2 (Z.ltb_ge (Z.of_nat (length (decoded video))) cl)) by lia.
  rewrite (proj2 (Z.ltb_ge cl 0)) by lia.
  split; [done|]. rewrite length_take. lia.
Qed.


(** *** Long videos *)

(** C7. In the long regime two positive strides give the same run. *)
Theorem long_video_stride_irrelevant cl video sr stride1 stride2 :
  cl * sr < nb_frames video →
  0 < stride1 →
  0 < stride2 →
  load_video cl video sr stride1 = load_video cl video sr stride2.
Proof.
  intros Hlong H1 H2. unfold load_video, Py.range_step.
  repeat case_bool_decide; try done; nia.
Qed.

(** The clips of a long video whose [total_frames] frames are all decoded:
    the run ends without an exception and yields one clip for each loop
    iteration whose value of [current_index] is an emission index, then
    [clip_frames // 2] clips of the tail flush. *)
Lemma long_video_clip_count cl video sr stride :
  0 < cl →
  0 < sr →
  0 < stride →
  cl * sr < nb_frames video →
  Z.of_nat (length (decoded video)) = nb_frames video →
  let T := nb_frames video in
  let r := load_video cl video sr stride in
  raised r = None
  ∧ length (yielded r)
    = (length (emitting cl sr T (iterations T sr)) + Z.to_nat (cl / 2))%nat
  ∧ Z.of_nat (length (yielded r))
    = iterations T sr `min` ((T + cl / 2) / sr) - cl / 2 / sr + cl / 2
  ∧ (sr = 1 → Z.of_nat (length (yielded r)) = T).
Proof.
  intros Hcl Hsr Hstride Hlong Hlen T r.
  assert (Hr : r = stream_loop cl sr (Py.range (cl / 2) (T + cl / 2))
                     (decoded video) [] (raw_position sr (0 - 1)) None).
  { subst r. unfold load_video, Py.range_step. fold T.
    rewrite (proj2 (Z.leb_gt T cl)) by nia.
    rewrite (proj2 (Z.leb_gt T (cl * sr))) by nia.
    rewrite (proj2 (Z.ltb_ge cl 0)) by lia.
    rewrite bool_decide_eq_false_2 by nia.
    reflexivity. }
  destruct (stream_loop_count cl sr T Hcl Hsr (length (decoded video))
              (decoded video) [] 0 None eq_refl) as [Hnone Hcount].
  { left. intros Hnil. rewrite Hnil in Hlen. simpl in Hlen. nia. }
  rewrite <- Hr in Hnone, Hcount. rewrite Hlen in Hcount. fold T in Hcount.
  fold (emitting cl sr T (iterations T sr)) in Hcount.
  assert (Hm : 0 ≤ iterations T sr) by (apply iterations_nonneg; nia).
  pose proof (length_emitting cl sr T (iterations T sr) Hsr Hm) as Hclosed.
  assert (Hh : 0 ≤ cl / 2) by (apply Z.div_pos; lia).
  assert (Ha : 0 ≤ cl / 2 / sr) by (apply Z.div_pos; lia).
  assert (Hab : cl / 2 / sr ≤ (T + cl / 2) / sr)
    by (apply Z.div_le_mono; lia).
  assert (Ham : cl / 2 / sr ≤ iterations T sr).
  { unfold iterations. apply Z.div_le_mono; [lia|].
    pose proof (Z.mul_div_le cl 2 ltac:(lia)). nia. }
  split; [done|]. split; [done|]. split.
  - rewrite Hcount. lia.
  - intros ->. rewrite Hcount. unfold iterations in *.
    rewrite !Z.div_1_r in *.
    replace (T + 1 - 1) with T in * by lia. lia.
Qed.

(** C2, amended. With [sample_rate = 1] every frame is a decimated frame
    and its number is the position of the decoder. For a long video whose
    [total_frames] frames are all decoded, the run ends without an
    exception and yields one clip for each decimated frame whose number is
    an emission index, [total_frames - clip_frames // 2] of them, then
    [clip_frames // 2] clips of the tail flush: [total_frames] clips. *)
Theorem unit_sampling_clip_count cl video stride :
  0 < cl →
  0 < stride →
  cl < nb_frames video →
  Z.of_nat (length (decoded video)) = nb_frames video →
  let T := nb_frames video in
  let r := load_video cl video 1 stride in
  raised r = None
  ∧ length (yielded r)
    = (length (decimated_matches cl 1 T) + Z.to_nat (cl / 2))%nat
  ∧ Z.of_nat (length (decimated_matches cl 1 T)) = T - cl / 2
  ∧ Z.of_nat (length (yielded r)) = T.
Proof.
  intros Hcl Hstride Hlong Hlen T r.
  destruct (long_video_clip_count cl video 1 stride Hcl ltac:(lia) Hstride
              ltac:(lia) Hlen) as (Hnone & _ & _ & Htotal).
  specialize (Htotal eq_refl). fold T r in Hnone, Htotal.
  assert (Hh : 0 ≤ cl / 2) by (apply Z.div_pos; lia).
  assert (Hhalf : cl / 2 ≤ cl) by (apply Z.div_le_upper_bound; lia).
  assert (Hmatches : Z.of_nat (length (decimated_matches cl 1 T)) = T - cl / 2).
  { unfold decimated_matches, iterations. rewrite Z.div_1_r.
    replace (T + 1 - 1) with T by lia.
    replace (seqZ 0 T) with (seqZ 0 (Z.of_nat (Z.to_nat T)))
      by (by rewrite Z2Nat.id by lia).
    rewrite (length_filter_seqZ_between _ (cl / 2) (T + cl / 2)).
    - rewrite Z2Nat.id by lia. lia.
    - intros j. unfold Py.range. rewrite elem_of_seqZ. lia. }
  split; [done|]. split; [lia|]. split; done.
Qed.

(** *** Window sizes with [sample_rate = 1] *)

Lemma length_deque_append_n (m n : nat) deq f :
  (length deq ≤ m)%nat →
  length (Py.deque_append_n m n deq f) = ((length deq + n) `min` m)%nat.
Proof.
  revert deq. induction n as [|n IH]; intros deq Hle; simpl; [lia|].
  rewrite IH; rewrite length_deque_append; lia.
Qed.

Lemma tail_flush_full cl (n : nat) deq f :
  0 < cl →
  length deq = Z.to_nat cl →
  Forall (λ clip, Z.of_nat (length clip) = cl)
    (yielded (tail_flush cl n deq (Some f))).
Proof.
  intros Hcl. revert deq.
  induction n as [|n IH]; intros deq Hlen; simpl; [constructor|].
  rewrite torch_stack_deque_append by done. simpl.
  assert (length (Py.deque_append (maxlen cl) deq f) = Z.to_nat cl) as Hlen'
    by (rewrite length_deque_append; unfold maxlen; lia).
  constructor; [lia | by apply IH].
Qed.

(** Without decimation and with an even [clip_frames], the window is full
    at every emission: after [k] iterations it holds
    [min clip_frames (clip_frames // 2 - 1 + k)] frames, and the first
    emission index is [clip_frames // 2]. *)
Lemma unit_loop_full cl T :
  0 < cl → cl = 2 * (cl / 2) →
  ∀ cap deq k lf,
    0 ≤ k →
    length deq
    = (if decide (k = 0) then 0%nat
       else Z.to_nat (cl `min` (cl / 2 - 1 + k))) →
    cl ≤ k + Z.of_nat (length cap) →
    cap ≠ [] ∨ is_Some lf →
    Forall (λ clip, Z.of_nat (length clip) = cl)
      (yielded (stream_loop cl 1 (Py.range (cl / 2) (T + cl / 2))
                  cap deq (raw_position 1 (k - 1)) lf)).
Proof.
  intros Hcl Heven cap.
  induction cap as [|frame cap IH]; intros deq k lf Hk Hdeq Hend Hlf.
  - destruct Hlf as [|[f ->]]; [done|].
    rewrite stream_loop_equation_1. simpl in Hend.
    apply tail_flush_full; [done|].
    rewrite Hdeq. rewrite decide_False by lia. lia.
  - rewrite stream_loop_equation_2. cbv zeta.
    rewrite torch_stack_deque_append by done.
    change (Z.to_nat (1 - 1)) with 0%nat. rewrite drop_0.
    replace (raw_position 1 (k - 1) + 1 + 0 `max` (1 - 1))
      with (raw_position 1 (k + 1 - 1)) by (unfold raw_position; lia).
    replace (raw_position 1 (k - 1) + 1) with k
      by (unfold raw_position; lia).
    set (deq' := Py.deque_append (maxlen cl) (prefill cl k frame deq) frame).
    assert (Hdeq' : length deq' = Z.to_nat (cl `min` (cl / 2 - 1 + (k + 1)))).
    { subst deq'. rewrite length_deque_append. unfold prefill, maxlen.
      case_bool_decide as Hk0.
      - subst k. rewrite decide_True in Hdeq by done.
        rewrite length_deque_append_n by lia. rewrite Hdeq. lia.
      - rewrite decide_False in Hdeq by done. rewrite Hdeq. lia. }
    assert (Hrest : Forall (λ clip, Z.of_nat (length clip) = cl)
              (yielded (stream_loop cl 1 (Py.range (cl / 2) (T + cl / 2))
                          cap deq' (raw_position 1 (k + 1 - 1)) (Some frame)))).
    { apply IH; [lia| |simpl in Hend; lia|by right; eexists].
      rewrite decide_False by lia. done. }
    case_bool_decide as Hin; [|done].
    simpl. constructor; [|done].
    unfold Py.range, raw_position in Hin. apply elem_of_seqZ in Hin.
    rewrite Hdeq'. lia.
Qed.

(** X5. With [sample_rate = 1] and an even [clip_frames], every clip of a long
    video that is decoded in full has [clip_frames] frames. *)
Theorem unit_sampling_clips_full cl video stride :
  0 < cl → cl = 2 * (cl / 2) →
  0 < stride →
  cl < nb_frames video →
  Z.of_nat (length (decoded video)) = nb_frames video →
  Forall (λ clip, Z.of_nat (length clip) = cl)
    (yielded (load_video cl video 1 stride)).
Proof.
  intros Hcl Heven Hstride Hlong Hlen.
  unfold load_video, Py.range_step.
  rewrite (proj2 (Z.leb_gt _ cl)) by lia.
  rewrite (proj2 (Z.leb_gt _ (cl * 1))) by lia.
  rewrite (proj2 (Z.ltb_ge cl 0)) by lia.
  rewrite bool_decide_eq_false_2 by lia.
  apply (unit_loop_full cl (nb_frames video) Hcl Heven
           (decoded video) [] 0 None); [done|done|lia|].
  left. intros Hnil. rewrite Hnil in Hlen. simpl in Hlen. lia.
Qed.

End SegmenterFacts.

(** * The clips of the long regime, and what every clip satisfies *)

Section WindowFacts.

Context {Frame : Type}.
Implicit Types (deq cap hist : list Frame) (f frame : Frame).

Lemma window_deque_append (m : nat) hist f :
  Py.deque_append m (window m hist) f = window m (hist ++ [f]).
Proof.
  unfold Py.deque_append, window.
  rewrite <- (drop_app_le hist [f]) by lia.
  rewrite drop_drop. f_equal.
  rewrite length_drop, !length_app. simpl. lia.
Qed.

Lemma window_deque_append_n (m n : nat) hist f :
  Py.deque_append_n m n (window m hist) f = window m (hist ++ replicate n f).
Proof.
  revert hist. induction n as [|n IH]; intros hist; simpl.
  - by rewrite app_nil_r.
  - rewrite window_deque_append, IH. by rewrite <- app_assoc.
Qed.

Lemma tail_flush_windows cl (n : nat) hist f :
  0 < cl →
  tail_flush cl n (window (maxlen cl) hist) (Some f)
  = mkRun ((λ j, window (maxlen cl) (hist ++ replicate j f)) <$> seq 1 n) None.
Proof.
  intros Hcl. revert hist.
  induction n as [|n IH]; intros hist; [done|].
  cbn [tail_flush]. rewrite torch_stack_deque_append by done.
  rewrite window_deque_append, IH. unfold yield. simpl. f_equal. f_equal.
  rewrite <- (fmap_S_seq 1 n), <- list_fmap_compose.
  apply list_fmap_ext. intros _ j _. simpl. by rewrite <- app_assoc.
Qed.

Lemma omap_seq_shift {B} (g : nat → option B) (a n : nat) :
  omap g (seq (S a) n) = omap (λ k, g (S k)) (seq a n).
Proof.
  revert a. induction n as [|n IH]; intros a; [done|].
  csimpl. by rewrite IH.
Qed.

Lemma sampled_nil sr : 0 < sr → sampled sr (@nil Frame) = [].
Proof. intros. unfold sampled. simpl. by rewrite iterations_0. Qed.

Lemma sampled_cons sr f cap :
  0 < sr →
  sampled sr (f :: cap) = f :: sampled sr (drop (Z.to_nat (sr - 1)) cap).
Proof.
  intros Hsr. unfold sampled.
  change (length (f :: cap)) with (S (length cap)).
  rewrite iterations_step by done.
  rewrite length_drop.
  pose proof (iterations_nonneg
    (Z.of_nat (length cap - Z.to_nat (sr - 1))) sr Hsr ltac:(lia)) as Hm.
  rewrite Z2Nat.inj_add by lia. change (Z.to_nat 1) with 1%nat.
  rewrite seq_app. csimpl. f_equal.
  rewrite omap_seq_shift. apply list_omap_ext, Forall_Forall2_diag, Forall_forall.
  intros k _.
  replace (S k * Z.to_nat sr)%nat
    with (S (Z.to_nat (sr - 1) + k * Z.to_nat sr))%nat by lia.
  simpl. by rewrite lookup_drop.
Qed.

(** From iteration [k ≥ 1] on: the deque is the window over what was
    appended, the rest of the stream gives the kept frames from the [k]-th
    on. *)
Lemma stream_loop_windows cl sr T hist0 (kept : list Frame) final :
  0 < cl → 0 < sr →
  last kept = Some final →
  ∀ (n : nat) cap (k : nat) lf,
    length cap = n →
    (1 ≤ k)%nat →
    sampled sr cap = drop k kept →
    kept !! (k - 1)%nat = Some lf →
    stream_loop cl sr (Py.range (cl / 2) (T + cl / 2)) cap
      (window (maxlen cl) (hist0 ++ take k kept))
      (raw_position sr (Z.of_nat k - 1)) (Some lf)
    = mkRun
        (((λ i, window (maxlen cl) (hist0 ++ take (S i) kept))
          <$> filter (λ i : nat, emits cl sr T (Z.of_nat i) = true)
                (seq k (length kept - k)))
         ++ ((λ j, window (maxlen cl) ((hist0 ++ kept) ++ replicate j final))
             <$> seq 1 (Z.to_nat (cl / 2))))
        None.
Proof.
  intros Hcl Hsr Hfinal n. induction n as [n IH] using lt_wf_ind.
  intros [|frame cap] k lf Hn Hk Hkept Hlf; simpl in Hn; subst n.
  - rewrite stream_loop_equation_1.
    rewrite sampled_nil in Hkept by done.
    symmetry in Hkept. apply drop_nil_inv in Hkept.
    assert (k = length kept) as ->.
    { apply lookup_lt_Some in Hlf. lia. }
    rewrite last_lookup in Hfinal.
    replace (pred (length kept)) with (length kept - 1)%nat in Hfinal by lia.
    rewrite Hlf in Hfinal. injection Hfinal as ->.
    rewrite Nat.sub_diag, firstn_all. simpl.
    by rewrite tail_flush_windows.
  - rewrite sampled_cons in Hkept by done.
    assert (Hframe : kept !! k = Some frame).
    { rewrite <- (Nat.add_0_r k), <- lookup_drop, <- Hkept. done. }
    assert (Hrest : sampled sr (drop (Z.to_nat (sr - 1)) cap) = drop (S k) kept).
    { replace (S k) with (k + 1)%nat by lia.
      rewrite <- drop_drop, <- Hkept. done. }
    pose proof (lookup_lt_Some _ _ _ Hframe) as Hlt.
    rewrite stream_loop_equation_2. cbv zeta.
    rewrite torch_stack_deque_append by done.
    replace (raw_position sr (Z.of_nat k - 1) + 1 + 0 `max` (sr - 1))
      with (raw_position sr (Z.of_nat (S k) - 1))
      by (unfold raw_position; lia).
    unfold prefill.
    rewrite (bool_decide_eq_false_2 (raw_position sr (Z.of_nat k - 1) + 1 = 0))
      by (unfold raw_position; nia).
    rewrite window_deque_append, <- app_assoc, <- (take_S_r _ _ _ Hframe).
    rewrite (IH (length cap - Z.to_nat (sr - 1))%nat ltac:(lia)
               (drop (Z.to_nat (sr - 1)) cap) (S k) frame
               (length_drop _ _) ltac:(lia) Hrest)
      by (by replace (S k - 1)%nat with k by lia).
    replace (length kept - k)%nat with (S (length kept - S k)) by lia.
    cbn [seq]. rewrite filter_cons.
    replace (Z.of_nat (S k) - 1) with (Z.of_nat k) by lia.
    unfold emits at 2.
    case_bool_decide as Hin.
    + rewrite decide_True by (unfold emits; by apply bool_decide_eq_true).
      done.
    + rewrite decide_False by (unfold emits; by rewrite bool_decide_eq_true).
      done.
Qed.

(** The run of a long video whose stream delivers at least one frame. *)
Lemma long_video_run cl (video : Video (Frame:=Frame)) sr stride :
  0 < cl →
  0 < sr →
  stride ≠ 0 →
  cl * sr < nb_frames video →
  decoded video ≠ [] →
  load_video cl video sr stride
  = mkRun (loop_clips cl sr (nb_frames video) (decoded video)
           ++ tail_clips cl sr (decoded video)) None.
Proof.
  intros Hcl Hsr Hstride Hlong Hne.
  destruct (decoded video) as [|first cap] eqn:Hdec; [done|].
  unfold load_video, Py.range_step. rewrite Hdec.
  rewrite (proj2 (Z.leb_gt _ cl)) by nia.
  rewrite (proj2 (Z.leb_gt _ (cl * sr))) by nia.
  rewrite (proj2 (Z.ltb_ge cl 0)) by lia.
  rewrite bool_decide_eq_false_2 by nia.
  set (T := nb_frames video).
  pose proof (sampled_cons sr first cap Hsr) as Hkept.
  set (kept := sampled sr (first :: cap)) in *.
  destruct (last kept) as [final|] eqn:Hfinal.
  2:{ apply last_None in Hfinal. rewrite Hfinal in Hkept. done. }
  rewrite stream_loop_equation_2. cbv zeta.
  rewrite torch_stack_deque_append by done.
  unfold prefill. rewrite (bool_decide_eq_true_2 (-1 + 1 = 0)) by done.
  set (hist0 := replicate (Z.to_nat (cl / 2 - 1)) first).
  assert (Hdeq : Py.deque_append (maxlen cl)
                   (Py.deque_append_n (maxlen cl) (Z.to_nat (cl / 2 - 1))
                      [] first) first
                 = window (maxlen cl) (hist0 ++ take 1 kept)).
  { change [] with (window (maxlen cl) (@nil Frame)).
    rewrite window_deque_append_n, window_deque_append.
    by rewrite Hkept. }
  rewrite Hdeq.
  replace (-1 + 1 + 0 `max` (sr - 1))
    with (raw_position sr (Z.of_nat 1 - 1)) by (unfold raw_position; lia).
  rewrite (stream_loop_windows cl sr T hist0 kept final Hcl Hsr Hfinal
             (length cap - Z.to_nat (sr - 1))%nat
             (drop (Z.to_nat (sr - 1)) cap) 1%nat first
             (length_drop _ _) ltac:(lia))
    by (by rewrite Hkept).
  unfold loop_clips, tail_clips, appended. fold kept. rewrite Hfinal.
  fold hist0. unfold maxlen.
  assert (Hlen : length kept = S (length kept - 1))
    by (rewrite Hkept; simpl; lia).
  rewrite Hlen at 3. cbn [seq]. rewrite filter_cons.
  rewrite (take_ge kept (S (length kept))) by lia.
  change (Z.of_nat 1 - 1) with (Z.of_nat 0).
  unfold emits at 1.
  case_bool_decide as Hin.
  - rewrite decide_True by (unfold emits; by apply bool_decide_eq_true).
    done.
  - rewrite decide_False by (unfold emits; by rewrite bool_decide_eq_true).
    done.
Qed.

Lemma sampled_lookup sr cap (k : nat) :
  0 < sr →
  sampled sr cap !! k = cap !! (k * Z.to_nat sr)%nat.
Proof.
  intros Hsr. remember (length cap) as n eqn:Hn.
  revert cap k Hn. induction n as [n IH] using lt_wf_ind.
  intros [|frame cap] k Hn.
  - by rewrite sampled_nil.
  - rewrite sampled_cons by done. destruct k as [|k]; [done|].
    simpl in Hn. cbn [lookup list_lookup].
    rewrite (IH (length (drop (Z.to_nat (sr - 1)) cap)))
      by (rewrite ?length_drop; lia || done).
    rewrite lookup_drop.
    replace (S k * Z.to_nat sr)%nat
      with (S (Z.to_nat (sr - 1) + k * Z.to_nat sr))%nat by lia.
    done.
Qed.

Lemma length_sampled sr cap :
  0 < sr →
  Z.of_nat (length (sampled sr cap)) = iterations (Z.of_nat (length cap)) sr.
Proof.
  intros Hsr. remember (length cap) as n eqn:Hn.
  revert cap Hn. induction n as [n IH] using lt_wf_ind.
  intros [|frame cap] Hn.
  - rewrite sampled_nil by done. simpl in Hn. subst n.
    by rewrite iterations_0.
  - rewrite sampled_cons by done. simpl in Hn. subst n.
    rewrite iterations_step by done. cbn [length].
    rewrite Nat2Z.inj_succ.
    rewrite (IH (length (drop (Z.to_nat (sr - 1)) cap)))
      by (rewrite ?length_drop; lia || done).
    rewrite length_drop. lia.
Qed.

Lemma elem_of_window (n : nat) hist (i : nat) f :
  hist !! i = Some f → (length hist - n ≤ i)%nat → f ∈ window n hist.
Proof.
  intros Hi Hle. unfold window. apply list_elem_of_lookup.
  exists (i - (length hist - n))%nat. rewrite lookup_drop.
  by replace (length hist - n + (i - (length hist - n)))%nat with i by lia.
Qed.

(** X1. The clips of a long video whose stream delivers at least one frame
    are the windows over what was appended so far, one for each emitting
    iteration, then the windows of the flush; the frames kept are the
    frames [0], [sample_rate], [2 * sample_rate], ... of the stream, one
    for each iteration. *)
Theorem long_video_windows cl (video : Video (Frame:=Frame)) sr stride :
  0 < cl →
  0 < sr →
  stride ≠ 0 →
  cl * sr < nb_frames video →
  decoded video ≠ [] →
  load_video cl video sr stride
  = mkRun (loop_clips cl sr (nb_frames video) (decoded video)
           ++ tail_clips cl sr (decoded video)) None
  ∧ (∀ k : nat, sampled sr (decoded video) !! k
                = decoded video !! (k * Z.to_nat sr)%nat)
  ∧ Z.of_nat (length (sampled sr (decoded video)))
    = iterations (Z.of_nat (length (decoded video))) sr.
Proof.
  intros Hcl Hsr Hstride Hlong Hne. split; [|split].
  - by apply long_video_run.
  - intros k. by apply sampled_lookup.
  - by apply length_sampled.
Qed.

(** X2. With at least 2 frames per clip no kept frame of a long video is
    lost: each one is in some clip. *)
Theorem long_video_covers_kept_frames cl (video : Video (Frame:=Frame))
    sr stride f :
  2 ≤ cl →
  0 < sr →
  stride ≠ 0 →
  cl * sr < nb_frames video →
  Z.of_nat (length (decoded video)) = nb_frames video →
  f ∈ sampled sr (decoded video) →
  ∃ clip, clip ∈ yielded (load_video cl video sr stride) ∧ f ∈ clip.
Proof.
  intros Hcl Hsr Hstride Hlong Hlen Hf.
  assert (Hne : decoded video ≠ []).
  { intros Hnil. rewrite Hnil in Hlen. simpl in Hlen. nia. }
  rewrite (long_video_run cl video sr stride) by (done || lia).
  cbn [yielded].
  apply list_elem_of_lookup in Hf as [i Hi].
  pose proof (lookup_lt_Some _ _ _ Hi) as Him.
  pose proof (length_sampled sr (decoded video) Hsr) as Hm.
  rewrite Hlen in Hm.
  set (T := nb_frames video) in *.
  set (kept := sampled sr (decoded video)) in *.
  set (a := cl / 2 / sr). set (b := (T + cl / 2) / sr).
  assert (Hh : 1 ≤ cl / 2) by (apply Z.div_le_lower_bound; lia).
  assert (Hhcl : cl / 2 < cl) by (apply Z.div_lt; lia).
  assert (Ha0 : 0 ≤ a) by (apply Z.div_pos; lia).
  assert (Hah : a ≤ cl / 2).
  { subst a. apply Z.div_le_upper_bound; [lia|]. nia. }
  assert (Hab : a < b).
  { subst a b. replace (T + cl / 2) with (cl / 2 + T) by lia.
    assert (cl / 2 / sr + 1 ≤ (cl / 2 + T) / sr); [|lia].
    replace (cl / 2 / sr + 1) with ((cl / 2 + 1 * sr) / sr)
      by (rewrite Z.div_add; lia).
    apply Z.div_le_mono; nia. }
  assert (Hcm : cl < Z.of_nat (length kept)).
  { rewrite Hm. unfold iterations.
    assert (cl + 1 ≤ (T + sr - 1) / sr); [|lia].
    apply Z.div_le_lower_bound; nia. }
  assert (Hbm : Z.of_nat (length kept) - 1 ≤ b).
  { rewrite Hm. subst b. unfold iterations.
    assert ((T + sr - 1) / sr ≤ (T + cl / 2) / sr + 1); [|lia].
    replace ((T + cl / 2) / sr + 1) with ((T + cl / 2 + 1 * sr) / sr)
      by (rewrite Z.div_add; lia).
    apply Z.div_le_mono; lia. }
  destruct (decoded video) as [|first rest] eqn:Hdec; [done|].
  set (hist0 := replicate (Z.to_nat (cl / 2 - 1)) first).
  assert (Hclip : ∀ k : nat,
            (i ≤ k < length kept)%nat → (k - i < Z.to_nat cl)%nat →
            f ∈ window (Z.to_nat cl) (hist0 ++ take (S k) kept)).
  { intros k Hk Hki.
    apply (elem_of_window _ _ (length hist0 + i)).
    - rewrite lookup_app_r by lia.
      replace (length hist0 + i - length hist0)%nat with i by lia.
      rewrite lookup_take_lt by lia. done.
    - rewrite length_app, length_take. lia. }
  destruct (decide (Z.of_nat i < b)) as [Hib|Hib].
  - (* the clip of iteration [max i a] *)
    set (k := (i `max` Z.to_nat a)%nat).
    exists (window (Z.to_nat cl) (hist0 ++ take (S k) kept)).
    split; [|apply Hclip; subst k; lia].
    apply elem_of_app. left. unfold loop_clips, appended. fold kept hist0.
    apply list_elem_of_fmap. exists k. split; [done|].
    apply list_elem_of_filter. split.
    + apply emits_iff; [done|]. fold a b. subst k. lia.
    + apply elem_of_seq. subst k. lia.
  - (* the first clip of the flush *)
    destruct (last kept) as [final|] eqn:Hfinal.
    2:{ apply last_None in Hfinal. rewrite Hfinal in Him. simpl in Him. lia. }
    exists (window (Z.to_nat cl) ((hist0 ++ kept) ++ [final])).
    split.
    + apply elem_of_app. right. unfold tail_clips, appended.
      fold kept hist0. rewrite Hfinal.
      apply list_elem_of_fmap. exists 1%nat. split.
      * by rewrite (take_ge kept (S (length kept))) by lia.
      * apply elem_of_seq. lia.
    + apply (elem_of_window _ _ (length hist0 + i)).
      * rewrite <- app_assoc, lookup_app_r by lia.
        replace (length hist0 + i - length hist0)%nat with i by lia.
        by rewrite lookup_app_l by lia.
      * rewrite !length_app. simpl. lia.
Qed.


(** *** Capacity and provenance of the clips *)

Lemma tail_flush_bounded cl (n : nat) deq lf :
  Forall (λ clip, (1 ≤ length clip ≤ maxlen cl)%nat)
    (yielded (tail_flush cl n deq lf)).
Proof.
  revert deq. induction n as [|n IH]; intros deq; simpl; [constructor|].
  destruct lf as [f|]; [|constructor].
  pose proof (length_deque_append (maxlen cl) deq f) as Hlen.
  destruct (Py.deque_append (maxlen cl) deq f) as [|x deq'] eqn:Hdeq;
    simpl; [constructor|].
  constructor; [|rewrite <- Hdeq; apply IH].
  change (length (x :: deq')) with (S (length deq')) in *. lia.
Qed.

Lemma stream_loop_bounded cl sr ends :
  ∀ (n : nat) cap deq idx lf,
    length cap = n →
    Forall (λ clip, (1 ≤ length clip ≤ maxlen cl)%nat)
      (yielded (stream_loop cl sr ends cap deq idx lf)).
Proof.
  intros n. induction n as [n IH] using lt_wf_ind.
  intros [|frame cap] deq idx lf Hn; simpl in Hn; subst n.
  - rewrite stream_loop_equation_1. apply tail_flush_bounded.
  - rewrite stream_loop_equation_2. cbv zeta.
    set (deq' := Py.deque_append _ _ frame).
    pose proof (length_deque_append (maxlen cl)
                  (prefill cl (idx + 1) frame deq) frame) as Hlen.
    fold deq' in Hlen.
    assert (Hrest : ∀ i, Forall (λ clip, (1 ≤ length clip ≤ maxlen cl)%nat)
              (yielded (stream_loop cl sr ends
                          (drop (Z.to_nat (sr - 1)) cap) deq' i (Some frame)))).
    { intros i. eapply IH; [|by rewrite length_drop]. lia. }
    case_bool_decide; [|apply Hrest].
    destruct deq' as [|x deq''] eqn:Hdeq; simpl; [constructor|].
    constructor; [|apply Hrest].
    change (length (x :: deq'')) with (S (length deq'')) in *. lia.
Qed.

(** X3. A clip never has more than [clip_frames] frames, whatever the decoder
    delivers; the clips of a long video are never empty. *)
Theorem clips_within_capacity cl (video : Video (Frame:=Frame)) sr stride :
  0 ≤ cl →
  Forall (λ clip,
            Z.of_nat (length clip) ≤ cl
            ∧ (cl * sr < nb_frames video → (1 ≤ length clip)%nat))
    (yielded (load_video cl video sr stride)).
Proof.
  intros Hcl. unfold load_video.
  destruct (nb_frames video <=? cl) eqn:Hshort.
  { apply Z.leb_le in Hshort. cbv zeta.
    destruct (padding_video _ _) as [e|v]; [constructor|].
    case_bool_decide as Hlen; simpl.
    - constructor; [|constructor]. split; [lia|].
      intros Hlong. assert (cl ≠ 0) by nia. lia.
    - constructor. }
  destruct (nb_frames video <=? cl * sr) eqn:Hmedium.
  { apply Z.leb_le in Hmedium. cbv zeta.
    destruct (if _ <? _ then _ else _) as [e|v]; [constructor|]. simpl.
    constructor; [|constructor]. split; [|lia].
    unfold Py.slice_to. rewrite (proj2 (Z.ltb_ge cl 0)) by lia.
    rewrite length_take. lia. }
  rewrite (proj2 (Z.ltb_ge cl 0)) by lia.
  destruct (Py.range_step _ _ _) as [e|starts]; [constructor|].
  eapply Forall_impl; [by eapply stream_loop_bounded|].
  intros clip [Hlo Hhi]. unfold maxlen in Hhi. split; [lia|done].
Qed.

Lemma torch_stack_Some deq (v : list Frame) :
  torch_stack deq = Some v → v = deq.
Proof. destruct deq; [done|]. by intros [= <-]. Qed.

Lemma deque_append_subseteq (m : nat) deq f (frames : list Frame) :
  deq ⊆ frames → f ∈ frames → Py.deque_append m deq f ⊆ frames.
Proof.
  intros Hdeq Hf x Hx. unfold Py.deque_append in Hx.
  apply subseteq_drop in Hx.
  apply elem_of_app in Hx as [Hx|Hx%list_elem_of_singleton];
    [by apply Hdeq | by subst].
Qed.

Lemma deque_append_n_subseteq (m n : nat) deq f (frames : list Frame) :
  deq ⊆ frames → f ∈ frames → Py.deque_append_n m n deq f ⊆ frames.
Proof.
  revert deq. induction n as [|n IH]; intros deq Hdeq Hf; [done|].
  simpl. apply IH; [|done]. by apply deque_append_subseteq.
Qed.

Lemma tail_flush_subseteq cl (n : nat) deq lf (frames : list Frame) :
  deq ⊆ frames → (∀ f, lf = Some f → f ∈ frames) →
  Forall (λ clip, clip ⊆ frames) (yielded (tail_flush cl n deq lf)).
Proof.
  revert deq. induction n as [|n IH]; intros deq Hdeq Hlf; simpl;
    [constructor|].
  destruct lf as [f|]; [|constructor].
  assert (Hdeq' : Py.deque_append (maxlen cl) deq f ⊆ frames)
    by (apply deque_append_subseteq; auto).
  destruct (torch_stack _) as [v|] eqn:Hv; simpl; [|constructor].
  constructor; [|by apply IH].
  by apply torch_stack_Some in Hv as ->.
Qed.

Lemma stream_loop_subseteq cl sr ends (frames : list Frame) :
  ∀ (n : nat) cap deq idx lf,
    length cap = n →
    cap ⊆ frames → deq ⊆ frames → (∀ f, lf = Some f → f ∈ frames) →
    Forall (λ clip, clip ⊆ frames)
      (yielded (stream_loop cl sr ends cap deq idx lf)).
Proof.
  intros n. induction n as [n IH] using lt_wf_ind.
  intros [|frame cap] deq idx lf Hn Hcap Hdeq Hlf; simpl in Hn; subst n.
  - rewrite stream_loop_equation_1. by apply tail_flush_subseteq.
  - rewrite stream_loop_equation_2. cbv zeta.
    assert (Hframe : frame ∈ frames) by (apply Hcap; left).
    set (deq' := Py.deque_append _ _ frame).
    assert (Hdeq' : deq' ⊆ frames).
    { apply deque_append_subseteq; [|done]. unfold prefill.
      case_bool_decide; [|done]. by apply deque_append_n_subseteq. }
    assert (Hrest : ∀ i, Forall (λ clip, clip ⊆ frames)
              (yielded (stream_loop cl sr ends
                          (drop (Z.to_nat (sr - 1)) cap) deq' i (Some frame)))).
    { intros i. eapply IH; [|by rewrite length_drop| |done|]; [lia| |].
      - intros x Hx%subseteq_drop. apply Hcap. by right.
      - by intros f [= <-]. }
    case_bool_decide; [|apply Hrest].
    destruct (torch_stack deq') as [v|] eqn:Hv; simpl; [|constructor].
    constructor; [|apply Hrest].
    by apply torch_stack_Some in Hv as ->.
Qed.

(** X4. Beyond the short regime every frame of every clip is a frame the
    decoder delivered: the prefill and the flush only repeat frames. *)
Theorem clips_hold_decoded_frames cl (video : Video (Frame:=Frame)) sr stride :
  cl < nb_frames video →
  Forall (λ clip, clip ⊆ decoded video)
    (yielded (load_video cl video sr stride)).
Proof.
  intros Hlt. unfold load_video.
  rewrite (proj2 (Z.leb_gt _ _) Hlt).
  destruct (nb_frames video <=? cl * sr).
  { cbv zeta.
    destruct (if _ <? _ then _ else _) as [e|v]; [constructor|]. simpl.
    constructor; [|constructor].
    unfold Py.slice_to, read_video.
    intros x Hx. destruct (cl <? 0); by apply subseteq_take in Hx. }
  destruct (cl <? 0); [constructor|].
  destruct (Py.range_step _ _ _) as [e|starts]; [constructor|].
  eapply stream_loop_subseteq; [done|done| |done].
  intros x Hx. by apply elem_of_nil in Hx.
Qed.

(** *** Edge cases of the long regime *)

(** X6. A long video whose stream delivers no frame yields nothing: the run
    ends with the [TypeError] of stacking [None] when there is a flush
    ([clip_frames ≥ 2]), and normally otherwise. *)
Theorem long_video_empty_stream cl (video : Video (Frame:=Frame)) sr stride :
  0 ≤ cl →
  cl < nb_frames video →
  cl * sr < nb_frames video →
  stride * sr ≠ 0 →
  decoded video = [] →
  load_video cl video sr stride
  = if decide (2 ≤ cl) then raise TypeError else stop.
Proof.
  intros Hcl Hshort Hlong Hstep Hdec. unfold load_video, Py.range_step.
  rewrite (proj2 (Z.leb_gt _ _) Hshort), (proj2 (Z.leb_gt _ _) Hlong).
  rewrite (proj2 (Z.ltb_ge cl 0)) by lia.
  rewrite bool_decide_eq_false_2 by done.
  rewrite Hdec, stream_loop_equation_1.
  case_decide as H2.
  - assert (0 < cl / 2) by (apply Z.div_str_pos; lia).
    destruct (Z.to_nat (cl / 2)) eqn:Hh; [lia|done].
  - replace (cl / 2) with 0; [done|].
    symmetry. apply Z.div_small. lia.
Qed.

(** X7. The stride is not dead when the step of the abandoned index
    computation is zero: a long video then raises [ValueError] before any
    frame is read. *)
Theorem long_video_zero_step_raises cl (video : Video (Frame:=Frame)) sr stride :
  0 ≤ cl →
  cl < nb_frames video →
  cl * sr < nb_frames video →
  stride * sr = 0 →
  load_video cl video sr stride
  = raise (ValueError "range() arg 3 must not be zero").
Proof.
  intros Hcl Hshort Hlong Hstep. unfold load_video, Py.range_step.
  rewrite (proj2 (Z.leb_gt _ _) Hshort), (proj2 (Z.leb_gt _ _) Hlong).
  rewrite (proj2 (Z.ltb_ge cl 0)) by lia.
  by rewrite bool_decide_eq_true_2.
Qed.

(** X8. In every regime a non-zero stride, negative ones included, gives the
    run of stride 1; in the short and medium regimes so does a zero one. *)
Theorem stride_matters_only_when_zero cl (video : Video (Frame:=Frame)) sr stride :
  stride ≠ 0 ∨ nb_frames video ≤ cl ∨ nb_frames video ≤ cl * sr →
  load_video cl video sr stride = load_video cl video sr 1.
Proof.
  intros H. unfold load_video, Py.range_step.
  destruct (nb_frames video <=? cl) eqn:Hshort; [done|].
  destruct (nb_frames video <=? cl * sr) eqn:Hmedium; [done|].
  apply Z.leb_gt in Hshort, Hmedium.
  destruct H as [H|[H|H]]; [|lia|lia].
  destruct (cl <? 0); [done|].
  repeat case_bool_decide; try done; nia.
Qed.

End WindowFacts.

(** * Properties of the checkpoint classifier *)

Section PyStrings.

Lemma endswith_ckpt_not_pt (s : string) :
  Py.endswith s ".ckpt" = true → Py.endswith s ".pt" = false.
Proof.
  induction s as [|c s IH]; [done|].
  cbn [Py.endswith]. intros H.
  apply orb_true_iff in H as [H|H].
  - apply String.eqb_eq in H. injection H as -> ->. reflexivity.
  - rewrite (IH H), orb_false_r.
    apply String.eqb_neq. intros Heq. injection Heq as -> ->. discriminate.
Qed.

Lemma split_not_nil sep s : Py.split sep s ≠ [].
Proof.
  destruct s as [|c s]; [done|]. cbn [Py.split].
  destruct (Ascii.eqb c sep); [done|]. by destruct (Py.split sep s).
Qed.

Lemma last_split_is_Some sep s : is_Some (last (Py.split sep s)).
Proof.
  destruct (last (Py.split sep s)) eqn:Hlast; [by eexists|].
  apply last_None in Hlast. by apply split_not_nil in Hlast.
Qed.

End PyStrings.

Lemma bind_inr {A B} (f : A → result B) (m : result A) (y : B) :
  m ≫= f = inr y → ∃ x, m = inr x ∧ f x = inr y.
Proof. destruct m as [e|x]; [done|]. intros H. by exists x. Qed.

Section CheckpointFacts.

Context {Tensor Float : Type}.
#[local] Abbreviation pyobj := (pyobj (Tensor:=Tensor)).
#[local] Abbreviation Marlin := (Marlin (Tensor:=Tensor) (Float:=Float)).
Implicit Types (items : gmap string pyobj) (ks : list string).

Lemma keys_inr (obj : pyobj) ks :
  keys obj = inr ks →
  ∃ items, obj = PDict items
           ∧ NoDup ks ∧ ∀ k, k ∈ ks ↔ is_Some (items !! k).
Proof.
  destruct obj as [t|items]; [done|]. intros [= <-].
  exists items. split; [done|]. split.
  - apply NoDup_fst_map_to_list.
  - intros k. rewrite list_elem_of_fmap. split.
    + intros [[k' v] [-> Hin]]. apply elem_of_map_to_list in Hin. by eexists.
    + intros [v Hv]. exists (k, v). by rewrite elem_of_map_to_list.
Qed.

(** Deleting keys that are all present, each once, raises nothing and
    removes exactly them. *)
Lemma delitems_present ks : ∀ items,
  NoDup ks → (∀ k, k ∈ ks → is_Some (items !! k)) →
  ∃ items', delitems (PDict items) ks = inr (PDict items')
            ∧ ∀ j, items' !! j = if decide (j ∈ ks) then None else items !! j.
Proof.
  induction ks as [|k ks IH]; intros items Hnd Hin.
  - exists items. split; [done|]. intros j.
    rewrite decide_False; [done|]. apply not_elem_of_nil.
  - apply NoDup_cons in Hnd as [Hk Hnd].
    destruct (Hin k ltac:(left)) as [v Hv].
    destruct (IH (delete k items) Hnd) as (items' & Hdel & Hlook).
    { intros k' Hk'. rewrite lookup_delete_ne by (by intros ->).
      apply Hin. by right. }
    exists items'. split.
    { cbn [delitems]. unfold delitem. rewrite Hv. apply Hdel. }
    intros j. rewrite Hlook.
    destruct (decide (j = k)) as [->|Hne].
    + rewrite lookup_delete_eq. rewrite (decide_True (P:=k ∈ k :: ks)) by left.
      by destruct (decide (k ∈ ks)).
    + rewrite lookup_delete_ne by done.
      destruct (decide (j ∈ ks)) as [Hj|Hj].
      * rewrite decide_True; [done|by right].
      * rewrite decide_False; [done|]. by intros [?|?]%elem_of_cons.
Qed.

Lemma scan_decoder_false ks :
  scan_decoder ks = false
  ↔ ∃ key, key ∈ ks ∧ Py.startswith key "decoder." = true.
Proof.
  unfold scan_decoder. rewrite negb_false_iff, existsb_exists.
  split; intros (key & Hin & Hpre); exists key; split; try done;
    by apply list_elem_of_In.
Qed.

Section FromFile.

Variable torch_load : string → result pyobj.
Variable resolve_config : string → result (Config (Float:=Float)).
Variable encoder_state_names : MarlinEncoder (Float:=Float) → list string.
Variable decoder_state_names : MarlinDecoder (Float:=Float) → list string.
Variable state_dict_fits : Marlin → gmap string pyobj → bool.

#[local] Abbreviation from_file :=
  (from_file torch_load resolve_config encoder_state_names
     decoder_state_names state_dict_fits).
#[local] Abbreviation state_names :=
  (state_names encoder_state_names decoder_state_names).
#[local] Abbreviation state_mapping := (state_mapping torch_load).

(** What a successful [from_file] did, statement by statement. *)
Lemma from_file_inr model_name path model :
  from_file model_name path = inr model →
  ∃ items config,
    state_mapping path = inr (PDict items)
    ∧ resolve_config model_name = inr config
    ∧ state model = items
    ∧ as_feature_extractor model = scan_decoder (map_to_list items).*1
    ∧ decoder model
      = (if as_feature_extractor model then None
         else Some (mkDecoder (img_size config) (patch_size config)
                      (decoder_embed_dim config) (decoder_depth config)
                      (decoder_num_heads config) (mlp_ratio config)
                      (qkv_bias config) (qk_scale config) (drop_rate config)
                      (attn_drop_rate config) (norm_layer config)
                      (init_values config) (tubelet_size config)))
    ∧ enc_dec_proj model
      = (if as_feature_extractor model then None
         else Some (mkLinear (encoder_embed_dim config)
                      (decoder_embed_dim config) false)).
Proof.
  unfold Checkpoint.from_file. intros H.
  apply bind_inr in H as (sd & Hsd & H).
  apply bind_inr in H as (ks & Hks & H).
  apply bind_inr in H as (config & Hcfg & H).
  destruct sd as [t|items]; [done|]. injection Hks as <-.
  exists items, config. split; [done|]. split; [done|].
  unfold load_state_dict in H. cbv zeta in H.
  destruct (_ && _); [|done].
  injection H as <-. unfold init.
  by destruct (scan_decoder (map_to_list items).*1).
Qed.

(** The strict [load_state_dict]: the names of the state of a model that
    [from_file] returns are the names of its sub-modules' parameters. *)
Lemma from_file_state_names model_name path model :
  from_file model_name path = inr model →
  ∀ key, is_Some (state model !! key) ↔ key ∈ state_names model.
Proof.
  unfold Checkpoint.from_file. intros H.
  apply bind_inr in H as (sd & _ & H).
  apply bind_inr in H as (ks & Hks & H).
  apply bind_inr in H as (config & _ & H).
  destruct sd as [t|items]; [done|]. clear Hks.
  unfold load_state_dict in H. cbv zeta in H.
  destruct (bool_decide _) eqn:Hkeys; [|done].
  destruct (state_dict_fits _ items); [|done].
  apply bool_decide_eq_true in Hkeys as [Hmissing Hunexpected].
  injection H as <-. cbn [state].
  set (model := init _ _ _ _ _ _ _ _ _ _ _ _ _ _ _ _ _ _ _) in *.
  change (Checkpoint.state_names encoder_state_names decoder_state_names
            (mkMarlin (ffmpeg_dir model) (encoder model)
               (as_feature_extractor model) (clip_frames model)
               (enc_dec_proj model) (decoder model) items))
    with (state_names model).
  intros key. split.
  - intros [v Hv]. destruct (decide (key ∈ state_names model)) as [|Hout];
      [done|]. exfalso.
    assert (Hin : key ∈ filter (λ k, k ∉ state_names model)
                          (map_to_list items).*1).
    { apply list_elem_of_filter. split; [done|].
      apply list_elem_of_fmap. exists (key, v).
      by rewrite elem_of_map_to_list. }
    rewrite Hunexpected in Hin. by apply elem_of_nil in Hin.
  - intros Hin. destruct (items !! key) as [v|] eqn:Hkey; [by eexists|].
    exfalso.
    assert (Hin' : key ∈ filter (λ k, items !! k = None) (state_names model)).
    { by apply list_elem_of_filter. }
    rewrite Hmissing in Hin'. by apply elem_of_nil in Hin'.
Qed.

(** No name of a sub-module's parameter starts with "discriminator". *)
Lemma state_names_not_discriminator (model : Marlin) key :
  key ∈ state_names model → Py.startswith key "discriminator" = false.
Proof.
  unfold Checkpoint.state_names.
  rewrite !elem_of_app, !list_elem_of_fmap.
  intros [(k & -> & _)|[Hdec|Hproj]]; [done| |].
  - destruct (decoder model); [|by apply elem_of_nil in Hdec].
    apply list_elem_of_fmap in Hdec as (k & -> & _). done.
  - destruct (enc_dec_proj model); [|by apply elem_of_nil in Hproj].
    apply list_elem_of_fmap in Hproj as (k & -> & _). done.
Qed.



(** C9. A path that ends neither in ".pt" nor in ".ckpt" makes
    [from_file] raise a [ValueError] whose message ends with what follows
    the last dot of the path; no model is returned. *)
Theorem from_file_unsupported_extension model_name path :
  Py.endswith path ".pt" = false →
  Py.endswith path ".ckpt" = false →
  ∃ ext,
    last (Py.split "." path) = Some ext
    ∧ from_file model_name path
      = inl (ValueError ("Unsupported file type: " +:+ ext)).
Proof.
  intros Hpt Hckpt.
  destruct (last_split_is_Some "." path) as [ext Hext].
  exists ext. split; [done|].
  unfold Checkpoint.from_file, Checkpoint.state_mapping.
  by rewrite Hpt, Hckpt, Hext.
Qed.

End FromFile.

End CheckpointFacts.

(** * More on the checkpoint classifier *)

Section PyStringFacts.

Implicit Types (s pre suf ext : string) (sep c : ascii).

Lemma split_whole sep s :
  sep ∉ list_ascii_of_string s → Py.split sep s = [s].
Proof.
  induction s as [|c s IH]; [done|]. cbn [list_ascii_of_string Py.split].
  intros Hnot. apply not_elem_of_cons in Hnot as [Hc Hs].
  rewrite (proj2 (Ascii.eqb_neq c sep)) by congruence.
  by rewrite (IH Hs).
Qed.

Lemma endswith_unfold s suf :
  Py.endswith s suf
  = String.eqb s suf
    || match s with
       | EmptyString => false
       | String _ s' => Py.endswith s' suf
       end.
Proof. by destruct s. Qed.

Lemma endswith_app pre suf : Py.endswith (pre +:+ suf) suf = true.
Proof.
  induction pre as [|c pre IH].
  - change ("" +:+ suf)%string with suf.
    by rewrite endswith_unfold, String.eqb_refl.
  - change (String c pre +:+ suf)%string with (String c (pre +:+ suf)).
    rewrite endswith_unfold, IH. apply orb_true_r.
Qed.

(** A string that ends with a separator and a piece free of it splits
    into at least two pieces, the last one being that piece. *)
Lemma endswith_split sep s ext :
  sep ∉ list_ascii_of_string ext →
  Py.endswith s (String sep ext) = true →
  ∃ piece pieces,
    Py.split sep s = piece :: pieces ∧ last pieces = Some ext.
Proof.
  intros Hext. induction s as [|c s IH]; [done|].
  cbn [Py.endswith]. intros H. apply orb_true_iff in H as [H|H].
  - apply String.eqb_eq in H. injection H as -> ->.
    cbn [Py.split]. rewrite Ascii.eqb_refl, split_whole by done.
    by eexists _, _.
  - destruct (IH H) as (piece & pieces & Hsplit & Hlast).
    cbn [Py.split]. rewrite Hsplit.
    destruct (Ascii.eqb c sep); eexists _, _; (split; [done|]); [|done].
    destruct pieces; [done|]. by rewrite last_cons_cons.
Qed.

Lemma endswith_last_split sep s ext :
  sep ∉ list_ascii_of_string ext →
  Py.endswith s (String sep ext) = true →
  last (Py.split sep s) = Some ext.
Proof.
  intros Hext H.
  destruct (endswith_split sep s ext Hext H) as (piece & pieces & -> & Hlast).
  destruct pieces; [done|]. by rewrite last_cons_cons.
Qed.

Lemma endswith_elem_of sep s ext :
  Py.endswith s (String sep ext) = true → sep ∈ list_ascii_of_string s.
Proof.
  induction s as [|c s IH]; [done|].
  cbn [Py.endswith list_ascii_of_string]. intros H.
  apply orb_true_iff in H as [H|H].
  - apply String.eqb_eq in H. injection H as -> ->. left.
  - right. by apply IH.
Qed.

End PyStringFacts.

Section CheckpointMore.

Context {Tensor Float : Type}.
#[local] Abbreviation pyobj := (pyobj (Tensor:=Tensor)).
#[local] Abbreviation Marlin := (Marlin (Tensor:=Tensor) (Float:=Float)).
Implicit Types (items : gmap string pyobj) (ks : list string).

Lemma delitems_nil_filter items :
  (∀ key, Py.startswith key "discriminator" = true → items !! key = None) →
  filter (λ k, Py.startswith k "discriminator" = true) (map_to_list items).*1
  = [].
Proof.
  intros Hclean.
  destruct (filter _ _) as [|k ks] eqn:Hfilter; [done|].
  assert (Hk : k ∈ filter (λ k, Py.startswith k "discriminator" = true)
                     (map_to_list items).*1) by (rewrite Hfilter; left).
  apply list_elem_of_filter in Hk as [Hpre Hk].
  apply list_elem_of_fmap in Hk as [[k' v] [-> Hin]].
  apply elem_of_map_to_list in Hin. simpl in *.
  rewrite (Hclean k' Hpre) in Hin. done.
Qed.

Section FromFile.

Variable torch_load : string → result pyobj.
Variable resolve_config : string → result (Config (Float:=Float)).
Variable encoder_state_names : MarlinEncoder (Float:=Float) → list string.
Variable decoder_state_names : MarlinDecoder (Float:=Float) → list string.
Variable state_dict_fits : Marlin → gmap string pyobj → bool.

#[local] Abbreviation from_file :=
  (from_file torch_load resolve_config encoder_state_names
     decoder_state_names state_dict_fits).
#[local] Abbreviation state_names :=
  (state_names encoder_state_names decoder_state_names).
#[local] Abbreviation state_mapping := (state_mapping torch_load).

(** The state mapping of a ".ckpt" file: the entries of its "state_dict"
    whose names do not start with "discriminator", each with its value. *)
Lemma state_mapping_ckpt path loaded items :
  Py.endswith path ".ckpt" = true →
  torch_load path = inr loaded →
  getitem loaded "state_dict" = inr (PDict items) →
  ∃ items',
    state_mapping path = inr (PDict items')
    ∧ ∀ key, items' !! key
             = if Py.startswith key "discriminator" then None
               else items !! key.
Proof.
  intros Hext Hload Hget. unfold Checkpoint.state_mapping.
  rewrite (endswith_ckpt_not_pt _ Hext), Hext, Hload. cbn.
  rewrite Hget. cbn.
  destruct (keys_inr (PDict items) _ eq_refl) as (items0 & [= <-] & Hnd & Hks).
  destruct (delitems_present
              (filter (λ k, Py.startswith k "discriminator" = true)
                 (map_to_list items).*1) items)
    as (items' & Hdel & Hlook).
  { by apply NoDup_filter. }
  { intros k [_ Hk]%list_elem_of_filter. by apply Hks. }
  exists items'. split; [done|]. intros key. rewrite Hlook.
  destruct (Py.startswith key "discriminator") eqn:Hpre.
  - case_decide as Hin; [done|].
    destruct (items !! key) eqn:Hkey; [|done].
    exfalso. apply Hin, list_elem_of_filter. split; [done|].
    apply Hks. by eexists.
  - rewrite decide_False; [done|].
    intros [Hpre' _]%list_elem_of_filter. congruence.
Qed.

(** X9. From a ".ckpt" file the model gets every entry of "state_dict" but
    those whose names start with "discriminator", values unchanged. *)
Theorem ckpt_state_is_filtered_state_dict model_name path loaded items model :
  Py.endswith path ".ckpt" = true →
  torch_load path = inr loaded →
  getitem loaded "state_dict" = inr (PDict items) →
  from_file model_name path = inr model →
  ∀ key, state model !! key
         = if Py.startswith key "discriminator" then None else items !! key.
Proof.
  intros Hext Hload Hget H.
  apply from_file_inr in H as (items1 & config & Hsm & _ & -> & _).
  destruct (state_mapping_ckpt path loaded items Hext Hload Hget)
    as (items' & Hsm' & Hlook).
  rewrite Hsm in Hsm'. by injection Hsm' as ->.
Qed.

(** X10. From a ".pt" file the model gets the loaded mapping as it is. *)
Theorem pt_state_is_loaded_mapping model_name path model :
  Py.endswith path ".pt" = true →
  from_file model_name path = inr model →
  torch_load path = inr (PDict (state model)).
Proof.
  intros Hext H.
  apply from_file_inr in H as (items & config & Hsm & _ & -> & _).
  unfold Checkpoint.state_mapping in Hsm. by rewrite Hext in Hsm.
Qed.

(** X11. A ".ckpt" file whose mapping has no "state_dict" entry is a
    [KeyError]. *)
Theorem ckpt_without_state_dict model_name path top :
  Py.endswith path ".ckpt" = true →
  torch_load path = inr (PDict top) →
  top !! "state_dict" = None →
  from_file model_name path = inl (KeyError "state_dict").
Proof.
  intros Hext Hload Hnone.
  unfold Checkpoint.from_file, Checkpoint.state_mapping.
  rewrite (endswith_ckpt_not_pt _ Hext), Hext, Hload. cbn.
  by rewrite Hnone.
Qed.

(** X12. The message of the unsupported-format error quotes what follows the
    last dot of the path, whatever stands before it. *)
Theorem from_file_names_extension model_name pre ext :
  "."%char ∉ list_ascii_of_string ext →
  ext ≠ "pt" → ext ≠ "ckpt" →
  from_file model_name (pre +:+ "." +:+ ext)
  = inl (ValueError ("Unsupported file type: " +:+ ext)).
Proof.
  intros Hdot Hpt Hckpt.
  pose proof (endswith_last_split "." (pre +:+ "." +:+ ext) ext Hdot
                (endswith_app pre ("." +:+ ext))) as Hlast.
  unfold Checkpoint.from_file, Checkpoint.state_mapping.
  destruct (Py.endswith (pre +:+ "." +:+ ext) ".pt") eqn:H1.
  { apply (endswith_last_split "." _ "pt") in H1.
    - congruence.
    - simpl. intros H.
      repeat (apply elem_of_cons in H as [H|H]; [discriminate|]).
      by apply elem_of_nil in H. }
  destruct (Py.endswith (pre +:+ "." +:+ ext) ".ckpt") eqn:H2.
  { apply (endswith_last_split "." _ "ckpt") in H2.
    - congruence.
    - simpl. intros H.
      repeat (apply elem_of_cons in H as [H|H]; [discriminate|]).
      by apply elem_of_nil in H. }
  by rewrite Hlast.
Qed.

(** X13. A path without any dot is unsupported, and the message quotes all of
    it. *)
Theorem from_file_dotless_path model_name path :
  "."%char ∉ list_ascii_of_string path →
  from_file model_name path
  = inl (ValueError ("Unsupported file type: " +:+ path)).
Proof.
  intros Hdot.
  unfold Checkpoint.from_file, Checkpoint.state_mapping.
  destruct (Py.endswith path ".pt") eqn:H1.
  { by apply endswith_elem_of in H1. }
  destruct (Py.endswith path ".ckpt") eqn:H2.
  { by apply endswith_elem_of in H2. }
  by rewrite split_whole.
Qed.

End FromFile.

(** X14. A mapping without discriminator entries gives the same result from a
    ".pt" file and from the "state_dict" of a ".ckpt" file. *)
Theorem clean_mapping_same_in_both_formats
    (load_pt load_ckpt : string → result pyobj)
    (resolve_config : string → result (Config (Float:=Float)))
    (encoder_state_names : MarlinEncoder (Float:=Float) → list string)
    (decoder_state_names : MarlinDecoder (Float:=Float) → list string)
    (state_dict_fits : Marlin → gmap string pyobj → bool)
    model_name path_pt path_ckpt items top :
  Py.endswith path_pt ".pt" = true →
  load_pt path_pt = inr (PDict items) →
  Py.endswith path_ckpt ".ckpt" = true →
  load_ckpt path_ckpt = inr (PDict top) →
  top !! "state_dict" = Some (PDict items) →
  (∀ key, Py.startswith key "discriminator" = true → items !! key = None) →
  Checkpoint.from_file load_ckpt resolve_config encoder_state_names
    decoder_state_names state_dict_fits model_name path_ckpt
  = Checkpoint.from_file load_pt resolve_config encoder_state_names
      decoder_state_names state_dict_fits model_name path_pt.
Proof.
  intros Hpt Hloadpt Hckpt Hloadckpt Hsd Hclean.
  unfold Checkpoint.from_file, Checkpoint.state_mapping.
  rewrite Hpt, Hloadpt, (endswith_ckpt_not_pt _ Hckpt), Hckpt, Hloadckpt.
  cbn. rewrite Hsd. cbn.
  by rewrite delitems_nil_filter.
Qed.

End CheckpointMore.

(** * Properties of [forward] and [extract_video] *)

Section InferenceFacts.

Context {Tensor Float Frame World : Type}.
#[local] Abbreviation pyobj := (pyobj (Tensor:=Tensor)).
#[local] Abbreviation Marlin := (Marlin (Tensor:=Tensor) (Float:=Float)).
#[local] Abbreviation Clip := (Clip (Frame:=Frame)).

Variable torch_load : string → result pyobj.
Variable resolve_config : string → result (Config (Float:=Float)).
Variable encoder_state_names : MarlinEncoder (Float:=Float) → list string.
Variable decoder_state_names : MarlinDecoder (Float:=Float) → list string.
Variable state_dict_fits : Marlin → gmap string pyobj → bool.

Variable encoder_call :
  MarlinEncoder (Float:=Float) → gmap string pyobj → Tensor → Tensor
  → result Tensor.
Variable linear_call : Linear → gmap string pyobj → Tensor → result Tensor.
Variable decoder_call :
  MarlinDecoder (Float:=Float) → gmap string pyobj → Tensor → Tensor
  → result Tensor.
Variable encoder_extract_features :
  MarlinEncoder (Float:=Float) → gmap string pyobj → Clip → bool
  → result Tensor.
Variable detector_inited : World → bool.
Variable detector_init : World → option string → result World.
Variable crop_face_frames : World → Clip → result Clip.
Variable spatial : Clip → Z * Z.
Variable cat : list Tensor → result Tensor.
Variable mean_dim0 : Tensor → Tensor.
Variable max_dim0 : Tensor → Tensor.

#[local] Abbreviation from_file :=
  (from_file torch_load resolve_config encoder_state_names
     decoder_state_names state_dict_fits).
#[local] Abbreviation forward :=
  (forward encoder_call linear_call decoder_call).
#[local] Abbreviation extract_clips :=
  (extract_clips encoder_extract_features detector_inited detector_init
     crop_face_frames spatial).
#[local] Abbreviation extract_video :=
  (extract_video encoder_extract_features detector_inited detector_init
     crop_face_frames spatial cat mean_dim0 max_dim0).
#[local] Abbreviation reduce := (reduce mean_dim0 max_dim0).
#[local] Abbreviation torch_cat := (torch_cat cat).

(** *** [forward] on a model that [from_file] built *)

Lemma from_file_flag model_name path model :
  from_file model_name path = inr model →
  as_feature_extractor model = true
  ↔ ∀ key, Py.startswith key "decoder." = true → state model !! key = None.
Proof.
  intros H.
  apply from_file_inr in H as (items & config & _ & _ & -> & Hflag & _).
  rewrite Hflag.
  destruct (keys_inr (PDict items) _ eq_refl) as (items' & [= <-] & _ & Hks).
  destruct (scan_decoder (map_to_list items).*1) eqn:Hscan.
  - split; [|done]. intros _ key Hpre.
    destruct (items !! key) eqn:Hkey; [|done].
    assert (scan_decoder (map_to_list items).*1 = false); [|congruence].
    apply scan_decoder_false. exists key. split; [|done].
    apply Hks. by eexists.
  - split; [done|]. intros Hnone.
    apply scan_decoder_false in Hscan as (key & Hin & Hpre).
    apply Hks in Hin as [v Hv]. rewrite (Hnone key Hpre) in Hv. done.
Qed.

(** X15. A model loaded from a checkpoint without any "decoder." entry refuses
    [forward], whatever the input and the mask. *)
Theorem encoder_only_checkpoint_refuses_forward model_name path model x mask :
  from_file model_name path = inr model →
  (∀ key, Py.startswith key "decoder." = true → state model !! key = None) →
  forward model x mask = inl RuntimeError.
Proof.
  intros H Hnone. unfold Inference.forward.
  by rewrite (proj2 (from_file_flag _ _ _ H) Hnone).
Qed.

(** X16. A model loaded from a checkpoint with a "decoder." entry needs a
    mask, and with one runs encoder, projection and decoder in turn:
    neither attribute is missing. *)
Theorem full_checkpoint_forward model_name path model key v x mask :
  from_file model_name path = inr model →
  state model !! key = Some v →
  Py.startswith key "decoder." = true →
  forward model x None = inl AssertionError
  ∧ ∃ proj dec,
      enc_dec_proj model = Some proj
      ∧ decoder model = Some dec
      ∧ forward model x (Some mask)
        = (x1 ← encoder_call (encoder model) (state model) x mask;
           x2 ← linear_call proj (state model) x1;
           decoder_call dec (state model) x2 mask).
Proof.
  intros H Hkey Hpre.
  assert (Hflag : as_feature_extractor model = false).
  { destruct (as_feature_extractor model) eqn:Hflag; [|done].
    pose proof (proj1 (from_file_flag _ _ _ H) Hflag key Hpre) as Hnone.
    rewrite Hnone in Hkey. done. }
  apply from_file_inr in H as (items & config & _ & _ & _ & _ & Hdec & Hproj).
  rewrite Hflag in Hdec, Hproj.
  unfold Inference.forward. rewrite Hflag, Hdec, Hproj.
  split; [done|]. by eexists _, _.
Qed.

(** *** [extract_video] *)

(** Without face cropping, clips of the right size whose features the
    encoder gives are extracted one by one, in order. *)
Lemma extract_clips_features self keep_seq device world clips :
  ∀ feats acc,
    Forall (λ v, spatial v = (224, 224)) clips →
    Forall2 (λ v f, encoder_extract_features (encoder self) (state self) v
                      (negb keep_seq) = inr f) clips feats →
    extract_clips self false keep_seq device world clips acc
    = inr (acc ++ feats).
Proof.
  induction clips as [|v clips IH]; intros feats acc Hsize Hfeat.
  - apply Forall2_nil_inv_l in Hfeat as ->. by rewrite app_nil_r.
  - apply Forall2_cons_inv_l in Hfeat as (f & feats' & Hf & Hfeat & ->).
    apply Forall_cons in Hsize as [Hv Hsize].
    cbn [Inference.extract_clips]. cbn.
    rewrite bool_decide_eq_true_2 by done.
    unfold extract_features. rewrite Hf. cbn.
    rewrite (IH feats' (acc ++ [f]) Hsize Hfeat).
    by rewrite <- app_assoc.
Qed.

(** X17. [extract_video] without face cropping: one feature per clip, in the
    order of the clips, concatenated and reduced; when the generator ends
    with an exception, that exception, after the clips were processed. *)
Theorem extract_video_feature_per_clip self world video sr stride reduction
    keep_seq device feats :
  Forall (λ v, spatial v = (224, 224))
    (yielded (load_video (clip_frames self) video sr stride)) →
  Forall2 (λ v f, encoder_extract_features (encoder self) (state self) v
                    (negb keep_seq) = inr f)
    (yielded (load_video (clip_frames self) video sr stride)) feats →
  extract_video self world video false sr stride reduction keep_seq device
  = match raised (load_video (clip_frames self) video sr stride) with
    | Some e => inl e
    | None => features ← torch_cat feats; inr (reduce reduction features)
    end.
Proof.
  intros Hsize Hfeat. unfold Inference.extract_video. cbv zeta.
  by rewrite (extract_clips_features _ _ _ _ _ feats [] Hsize Hfeat).
Qed.

(** X18. A reduction that is neither "mean" nor "max" is not refused: it gives
    what "none" gives. *)
Theorem extract_video_unknown_reduction self world video crop_face sr stride
    reduction keep_seq device :
  reduction ≠ "mean" → reduction ≠ "max" →
  extract_video self world video crop_face sr stride reduction keep_seq device
  = extract_video self world video crop_face sr stride "none" keep_seq device.
Proof.
  intros Hmean Hmax. unfold Inference.extract_video, Inference.reduce.
  by rewrite (proj2 (String.eqb_neq _ _) Hmean),
             (proj2 (String.eqb_neq _ _) Hmax).
Qed.

(** X19. A clip of another size than 224 x 224 stops [extract_video] with an
    [AssertionError], whatever comes after it. *)
Theorem extract_video_wrong_size self world video sr stride reduction
    keep_seq device v clips :
  yielded (load_video (clip_frames self) video sr stride) = v :: clips →
  spatial v ≠ (224, 224) →
  extract_video self world video false sr stride reduction keep_seq device
  = inl AssertionError.
Proof.
  intros Hrun Hsize. unfold Inference.extract_video. cbv zeta.
  rewrite Hrun. cbn. by rewrite bool_decide_eq_false_2.
Qed.

(** X20. A zero stride on a long video makes [extract_video] raise the
    [ValueError] of the generator before any clip is read, with or without
    face cropping. *)
Theorem extract_video_zero_step self world video crop_face sr stride
    reduction keep_seq device :
  0 ≤ clip_frames self →
  clip_frames self < nb_frames video →
  clip_frames self * sr < nb_frames video →
  stride * sr = 0 →
  extract_video self world video crop_face sr stride reduction keep_seq device
  = inl (ValueError "range() arg 3 must not be zero").
Proof.
  intros Hcl Hshort Hlong Hstep.
  unfold Inference.extract_video, load_video, Py.range_step.
  rewrite (proj2 (Z.leb_gt _ _) Hshort), (proj2 (Z.leb_gt _ _) Hlong).
  rewrite (proj2 (Z.ltb_ge _ 0)) by lia.
  by rewrite bool_decide_eq_true_2.
Qed.

(** X21. A long video whose stream delivers no frame makes [extract_video]
    raise: the [TypeError] of the flush, or with fewer than 2 frames per
    clip the [RuntimeError] of concatenating nothing. It never returns an
    empty batch. *)
Theorem extract_video_empty_stream self world video crop_face sr stride
    reduction keep_seq device :
  0 ≤ clip_frames self →
  clip_frames self < nb_frames video →
  clip_frames self * sr < nb_frames video →
  stride * sr ≠ 0 →
  decoded video = [] →
  extract_video self world video crop_face sr stride reduction keep_seq device
  = inl (if decide (2 ≤ clip_frames self) then TypeError else RuntimeError).
Proof.
  intros Hcl Hshort Hlong Hstep Hdec.
  unfold Inference.extract_video, load_video, Py.range_step.
  rewrite (proj2 (Z.leb_gt _ _) Hshort), (proj2 (Z.leb_gt _ _) Hlong).
  rewrite (proj2 (Z.ltb_ge _ 0)) by lia.
  rewrite bool_decide_eq_false_2 by done.
  rewrite Hdec, stream_loop_equation_1.
  case_decide as H2.
  - assert (0 < clip_frames self / 2) by (apply Z.div_str_pos; lia).
    destruct (Z.to_nat (clip_frames self / 2)) eqn:Hh; [lia|done].
  - replace (clip_frames self / 2) with 0; [done|].
    symmetry. apply Z.div_small. lia.
Qed.


End InferenceFacts.

(** * The reductions of [extract_video] *)

Section ReductionFacts.

Import Reductions.

Implicit Types (row d : list Qc) (rows : list (list Qc)).

Lemma rows_of_pooled rows : rows_of (pooled rows) = inr rows.
Proof.
  induction rows as [|row rows IH]; [done|].
  cbn. unfold pooled in IH. rewrite IH. done.
Qed.

(** Pooled features of one length concatenate to the batch of their rows. *)
Lemma cat_pooled row rows :
  Forall (λ r, length r = length row) rows →
  cat (pooled (row :: rows)) = inr (Matrix (row :: rows)).
Proof.
  intros Hlen. unfold cat. cbn [pooled fmap list_fmap].
  cbn [rows_of]. fold (pooled rows). rewrite rows_of_pooled. cbn.
  rewrite Nat.eqb_refl. cbn.
  replace (forallb _ rows) with true; [done|].
  symmetry. apply forallb_forall. intros r Hr.
  apply Nat.eqb_eq. rewrite Forall_forall in Hlen. apply Hlen.
  by apply list_elem_of_In.
Qed.

Lemma count_cons {A} (x : A) l : count (x :: l) = (1 + count l)%Qc.
Proof.
  unfold count. simpl length. rewrite Nat2Z.inj_succ, <- Z.add_1_l.
  by rewrite Z2Qc_inj_add.
Qed.

Lemma count_nil {A} : count (@nil A) = 0%Qc.
Proof. apply Z2Qc_inj_0. Qed.

Lemma count_cons_neq_0 {A} (x : A) l : count (x :: l) ≠ 0%Qc.
Proof.
  unfold count. rewrite <- Z2Qc_inj_0. intros H%Z2Qc_inj. simpl in H. lia.
Qed.

(** Adding a row to [k] times itself. *)
Lemma zip_plus_scaled row (k : Qc) :
  zip_with Qcplus ((λ x, k * x)%Qc <$> row) row
  = (λ x, (k + 1) * x)%Qc <$> row.
Proof.
  induction row as [|x row IH]; [done|].
  cbn. rewrite <- IH. f_equal. ring.
Qed.

Lemma foldl_plus_replicate row (n : nat) : ∀ k : Qc,
  foldl (zip_with Qcplus) ((λ x, k * x)%Qc <$> row) (replicate n row)
  = (λ x, (k + count (replicate n row)) * x)%Qc <$> row.
Proof.
  induction n as [|n IH]; intros k.
  - cbn [replicate foldl]. rewrite count_nil.
    apply list_fmap_ext. intros _ x _. ring.
  - cbn [replicate foldl]. rewrite zip_plus_scaled, IH.
    apply list_fmap_ext. intros _ x _. rewrite count_cons. ring.
Qed.

(** The mean of a batch of copies of one row is that row. *)
Lemma mean_dim0_replicate row (n : nat) :
  mean_dim0 (Matrix (replicate (S n) row)) = Vector row.
Proof.
  cbn [replicate mean_dim0]. f_equal.
  assert (Hone : (λ x, 1 * x)%Qc <$> row = row).
  { rewrite <- (list_fmap_id row) at 2. apply list_fmap_ext.
    intros _ x _. unfold id. ring. }
  pose proof (foldl_plus_replicate row n 1) as Hsum.
  rewrite Hone in Hsum. rewrite Hsum, <- list_fmap_compose.
  rewrite <- (list_fmap_id row) at 2.
  apply list_fmap_ext. intros _ x _. cbn. rewrite count_cons.
  pose proof (count_cons_neq_0 row (replicate n row)) as Hne.
  rewrite count_cons in Hne. field. done.
Qed.

Lemma Qcmax_r (x y : Qc) : (x ≤ y)%Qc → Qcmax x y = y.
Proof. intros H. unfold Qcmax. by rewrite decide_True. Qed.

Lemma Qcmax_l (x y : Qc) : (y ≤ x)%Qc → Qcmax x y = x.
Proof.
  intros H. unfold Qcmax. case_decide as Hxy; [|done].
  by apply Qcle_antisym.
Qed.

Lemma zip_max_r row d : dominates d row → zip_with Qcmax row d = d.
Proof.
  unfold dominates. induction 1 as [|x y row d Hxy _ IH]; [done|].
  cbn. by rewrite IH, Qcmax_r.
Qed.

Lemma zip_max_l row d : dominates d row → zip_with Qcmax d row = d.
Proof.
  unfold dominates. induction 1 as [|x y row d Hxy _ IH]; [done|].
  cbn. by rewrite IH, Qcmax_l.
Qed.

Lemma zip_max_dominated acc row d :
  dominates d acc → dominates d row → dominates d (zip_with Qcmax acc row).
Proof.
  unfold dominates. intros Hacc. revert row.
  induction Hacc as [|x y acc d Hxy _ IH]; intros row Hrow.
  - apply Forall2_nil_inv_r in Hrow as ->. constructor.
  - apply Forall2_cons_inv_r in Hrow as (z & row' & Hz & Hrow & ->).
    cbn. constructor; [|by apply IH].
    unfold Qcmax. by case_decide.
Qed.

Lemma foldl_max_from rows d :
  Forall (dominates d) rows → foldl (zip_with Qcmax) d rows = d.
Proof.
  induction 1 as [|row rows Hrow _ IH]; [done|].
  cbn. by rewrite zip_max_l.
Qed.

Lemma foldl_max_reaches rows d : ∀ acc,
  dominates d acc → Forall (dominates d) rows → d ∈ rows →
  foldl (zip_with Qcmax) acc rows = d.
Proof.
  induction rows as [|row rows IH]; intros acc Hacc Hrows Hin.
  - by apply elem_of_nil in Hin.
  - apply Forall_cons in Hrows as [Hrow Hrows]. cbn.
    apply elem_of_cons in Hin as [<-|Hin].
    + rewrite zip_max_r by done. by apply foldl_max_from.
    + apply IH; [|done|done]. by apply zip_max_dominated.
Qed.

(** The maximum of a batch in which one row dominates is that row. *)
Lemma max_dim0_dominating rows d :
  d ∈ rows → Forall (dominates d) rows → max_dim0 (Matrix rows) = Vector d.
Proof.
  intros Hin Hrows. destruct rows as [|row rows];
    [by apply elem_of_nil in Hin|].
  cbn [max_dim0]. f_equal.
  apply Forall_cons in Hrows as [Hrow Hrows].
  apply elem_of_cons in Hin as [<-|Hin].
  - by apply foldl_max_from.
  - by apply foldl_max_reaches.
Qed.

Lemma dominates_length d row : dominates d row → length row = length d.
Proof. apply Forall2_length. Qed.

Context {Float Frame World : Type}.
#[local] Abbreviation Marlin := (Marlin (Tensor:=tensor) (Float:=Float)).
#[local] Abbreviation Clip := (Clip (Frame:=Frame)).

Variable encoder_extract_features :
  MarlinEncoder (Float:=Float) → gmap string (pyobj (Tensor:=tensor)) → Clip
  → bool → result tensor.
Variable detector_inited : World → bool.
Variable detector_init : World → option string → result World.
Variable crop_face_frames : World → Clip → result Clip.
Variable spatial : Clip → Z * Z.

#[local] Abbreviation extract_clips :=
  (extract_clips encoder_extract_features detector_inited detector_init
     crop_face_frames spatial).
#[local] Abbreviation extract_video :=
  (extract_video encoder_extract_features detector_inited detector_init
     crop_face_frames spatial cat mean_dim0 max_dim0).


End ReductionFacts.

(** * Properties of the checkpoint cache *)

Lemma endswith_app_l (pre s suf : string) :
  Py.endswith s suf = true → Py.endswith (pre +:+ s) suf = true.
Proof.
  intros H. induction pre as [|c pre IH]; [done|].
  change (String c pre +:+ s)%string with (String c (pre +:+ s)).
  cbn [Py.endswith]. rewrite IH. apply orb_true_r.
Qed.

Lemma endswith_self (s : string) : Py.endswith s s = true.
Proof. destruct s; cbn [Py.endswith]; by rewrite String.eqb_refl. Qed.

Section OnlineFacts.

Context {Tensor Float FS : Type}.
#[local] Abbreviation pyobj := (pyobj (Tensor:=Tensor)).
#[local] Abbreviation Marlin := (Marlin (Tensor:=Tensor) (Float:=Float)).

Variable resolve_config : string → result (Config (Float:=Float)).
Variable downloadable : Config (Float:=Float) → option (string * string).
Variable mkdir_exist_ok : FS → string → result FS.
Variable joinpath : string → string → string.
Variable path_exists : FS → string → bool.
Variable urlretrieve : FS → string → string → result FS.
Variable torch_load : FS → string → result pyobj.
Variable rmtree : FS → string → result FS.
Variable encoder_state_names : MarlinEncoder (Float:=Float) → list string.
Variable decoder_state_names : MarlinDecoder (Float:=Float) → list string.
Variable state_dict_fits : Marlin → gmap string pyobj → bool.

#[local] Abbreviation from_online :=
  (from_online resolve_config downloadable mkdir_exist_ok joinpath
     path_exists urlretrieve torch_load encoder_state_names
     decoder_state_names state_dict_fits).
#[local] Abbreviation clean_cache := (clean_cache path_exists rmtree).

Lemma cache_file_name_pt model_name full_model :
  Py.endswith (cache_file_name model_name full_model) ".pt" = true.
Proof.
  unfold cache_file_name. do 3 apply endswith_app_l. apply endswith_self.
Qed.

(** X23. The cache file always has the extension of a raw mapping: a model
    that [from_online] returns holds the mapping of its file as it is,
    nothing deleted from it. *)
Theorem from_online_loads_raw_mapping fs fs' model_name full_model model :
  (∀ dir name, Py.endswith name ".pt" = true →
               Py.endswith (joinpath dir name) ".pt" = true) →
  from_online fs model_name full_model = inr (fs', model) →
  torch_load fs' (joinpath ".marlin" (cache_file_name model_name full_model))
  = inr (PDict (state model)).
Proof.
  intros Hjoin H. unfold Online.from_online in H.
  apply bind_inr in H as (config & _ & H).
  destruct (downloadable config) as [[full_url encoder_url]|]; [|done].
  cbv zeta in H.
  apply bind_inr in H as (fs1 & _ & H).
  apply bind_inr in H as (fs2 & _ & H).
  apply bind_inr in H as (model' & Hfile & [= <- <-]).
  apply from_file_inr in Hfile as (items & config' & Hsm & _ & -> & _).
  unfold state_mapping in Hsm.
  by rewrite (Hjoin _ _ (cache_file_name_pt model_name full_model)) in Hsm.
Qed.

(** X24. A cached file that does not load is never downloaded again:
    [from_online] raises what [torch.load] raises, without asking the
    network. *)
Theorem from_online_corrupt_cache fs fs1 model_name full_model config urls e :
  (∀ dir name, Py.endswith name ".pt" = true →
               Py.endswith (joinpath dir name) ".pt" = true) →
  resolve_config model_name = inr config →
  downloadable config = Some urls →
  mkdir_exist_ok fs ".marlin" = inr fs1 →
  path_exists fs1 (joinpath ".marlin" (cache_file_name model_name full_model))
  = true →
  torch_load fs1 (joinpath ".marlin" (cache_file_name model_name full_model))
  = inl e →
  from_online fs model_name full_model = inl e.
Proof.
  intros Hjoin Hcfg Hurls Hmkdir Hexists Hload.
  unfold Online.from_online. rewrite Hcfg. cbn. rewrite Hurls.
  destruct urls as [full_url encoder_url]. cbv zeta.
  rewrite Hmkdir. cbn. rewrite Hexists. cbn.
  unfold from_file, state_mapping.
  rewrite (Hjoin _ _ (cache_file_name_pt model_name full_model)), Hload.
  done.
Qed.

(** X25. Clearing the cache a second time does nothing and prints nothing,
    given that [rmtree] removes the directory. *)
Theorem clean_cache_twice fs fs' verbose verbose' out :
  (∀ fs0 fs1, rmtree fs0 ".marlin" = inr fs1 →
              path_exists fs1 ".marlin" = false) →
  clean_cache fs verbose = inr (fs', out) →
  clean_cache fs' verbose' = inr (fs', []).
Proof.
  intros Hrm H. unfold Online.clean_cache in *. cbv zeta in *.
  destruct (path_exists fs ".marlin") eqn:Hex.
  - apply bind_inr in H as (fs1 & Hfs1 & H).
    assert (fs1 = fs') as -> by (destruct verbose; by injection H).
    by rewrite (Hrm _ _ Hfs1).
  - injection H as <- <-. by rewrite Hex.
Qed.

End OnlineFacts.

(** * The properties at concrete inputs *)

Import Examples.

(** ** Clip segmenter *)

(** C1. With the default [sample_rate = 2], a model of 16 frames per clip and
    a video of 33 frames: the run ends normally, and the first four clips
    have 12, 13, 14 and 15 frames instead of 16, the first one being seven
    prefilled copies of frame 0 and the frames 0, 2, 4, 6 and 8. In the
    medium regime, a video announced with 20 frames of which 10 are decoded
    gives a clip of 10 frames. *)
Theorem default_sampling_yields_short_clips :
  let r := load_video 16 (video_of 33) 2 16 in
  (16 * 2 < nb_frames (video_of 33)
   ∧ raised r = None
   ∧ head (yielded r) = Some [0; 0; 0; 0; 0; 0; 0; 0; 2; 4; 6; 8]
   ∧ length <$> yielded r
     = [12; 13; 14; 15; 16; 16; 16; 16; 16; 16; 16; 16; 16;
        16; 16; 16; 16; 16; 16; 16; 16]%nat)
  ∧ (16 < nb_frames under_reported ≤ 16 * 2
     ∧ load_video 16 under_reported 2 16 = mkRun [seqZ 0 10] None).
Proof. vm_compute. repeat split; (reflexivity || discriminate). Qed.

(** C2 fails as stated. With [sample_rate = 1], 2 frames per clip and 3
    frames, every frame is a decimated frame; the frames 1 and 2 are the
    matches, 2 and not 3 of them, and with the one clip of the tail flush
    there are 3 clips, not [3 + 1]. *)
Lemma unit_sampling_count_not_spec :
  2 * 1 < nb_frames (video_of 3)
  ∧ yielded (load_video 2 (video_of 3) 1 16) = [[0; 1]; [1; 2]; [2; 2]]
  ∧ Z.of_nat (length (yielded (load_video 2 (video_of 3) 1 16)))
    ≠ spec_clip_count 2 3
  ∧ decimated_matches 2 1 3 = [1; 2].
Proof.
  split; [reflexivity|]. split; [vm_compute; reflexivity|].
  split; [by vm_compute|vm_compute; reflexivity].
Qed.

Lemma unit_sampling_clip_count_witness :
  let T := nb_frames (video_of 40) in
  let r := load_video 16 (video_of 40) 1 16 in
  raised r = None
  ∧ length (yielded r)
    = (length (decimated_matches 16 1 T) + Z.to_nat (16 / 2))%nat
  ∧ Z.of_nat (length (decimated_matches 16 1 T)) = T - 16 / 2
  ∧ Z.of_nat (length (yielded r)) = T.
Proof.
  apply (unit_sampling_clip_count 16 (video_of 40) 16);
    [lia | lia | simpl; lia | reflexivity].
Defined.



Lemma medium_video_first_frames_witness :
  load_video 16 (video_of 20) 2 16
  = mkRun [take (Z.to_nat 16) (decoded (video_of 20))] None
  ∧ Z.of_nat (length (take (Z.to_nat 16) (decoded (video_of 20)))) = 16.
Proof.
  apply (medium_video_first_frames 16 (video_of 20) 2 16);
    [lia | simpl; lia | simpl; lia | simpl; lia].
Defined.



Lemma long_video_stride_irrelevant_witness :
  load_video 16 (video_of 33) 2 16 = load_video 16 (video_of 33) 2 4.
Proof.
  apply (long_video_stride_irrelevant 16 (video_of 33) 2 16 4);
    [simpl; lia | lia | lia].
Defined.

(** ** Checkpoint classifier *)


(** A ".pt" file whose mapping has a discriminator entry is not loaded:
    the module has no such name. *)
Lemma pt_file_with_discriminator_is_refused :
  state_mapping (raw_file trained_items) "model.pt" = inr (PDict trained_items)
  ∧ from_file (raw_file trained_items) registry encoder_names decoder_names
      fits_all "marlin_vit_base" "model.pt"
    = inl RuntimeError.
Proof. split; vm_compute; reflexivity. Qed.


Lemma from_file_unsupported_extension_witness :
  ∃ ext,
    last (Py.split "." "model.tar.gz") = Some ext
    ∧ from_file (raw_file trained_items) registry
      encoder_names decoder_names fits_all
        "marlin_vit_base" "model.tar.gz"
      = inl (ValueError ("Unsupported file type: " +:+ ext)).
Proof.
  apply (from_file_unsupported_extension (raw_file trained_items) registry
           encoder_names decoder_names fits_all
           "marlin_vit_base" "model.tar.gz"); reflexivity.
Defined.

(** * Further properties at concrete inputs *)

Import MoreExamples.

(** ** Clip segmenter, further properties *)

Lemma long_video_windows_witness :
  load_video 16 (video_of 33) 2 16
  = mkRun (loop_clips 16 2 (nb_frames (video_of 33)) (decoded (video_of 33))
           ++ tail_clips 16 2 (decoded (video_of 33))) None
  ∧ (∀ k : nat, sampled 2 (decoded (video_of 33)) !! k
                = decoded (video_of 33) !! (k * Z.to_nat 2)%nat)
  ∧ Z.of_nat (length (sampled 2 (decoded (video_of 33))))
    = iterations (Z.of_nat (length (decoded (video_of 33)))) 2.
Proof.
  apply (long_video_windows 16 (video_of 33) 2 16);
    [lia | lia | lia | simpl; lia | discriminate].
Defined.

Lemma long_video_covers_kept_frames_witness :
  ∃ clip, clip ∈ yielded (load_video 16 (video_of 33) 2 16) ∧ 32 ∈ clip.
Proof.
  apply (long_video_covers_kept_frames 16 (video_of 33) 2 16 32);
    [lia | lia | lia | simpl; lia | reflexivity |].
  apply list_elem_of_lookup. exists 16%nat. reflexivity.
Defined.

Lemma clips_within_capacity_witness :
  Forall (λ clip : list Z,
            Z.of_nat (length clip) ≤ 16
            ∧ (16 * 2 < nb_frames (video_of 33) → (1 ≤ length clip)%nat))
    (yielded (load_video 16 (video_of 33) 2 16)).
Proof. apply (clips_within_capacity 16 (video_of 33) 2 16). lia. Defined.

Lemma clips_hold_decoded_frames_witness :
  Forall (λ clip : list Z, clip ⊆ decoded (video_of 33))
    (yielded (load_video 16 (video_of 33) 2 16)).
Proof.
  apply (clips_hold_decoded_frames 16 (video_of 33) 2 16). simpl. lia.
Defined.

Lemma long_video_empty_stream_witness :
  load_video 16 no_frames 2 16
  = if decide (2 ≤ 16) then raise TypeError else stop.
Proof.
  apply (long_video_empty_stream 16 no_frames 2 16);
    [lia | simpl; lia | simpl; lia | lia | reflexivity].
Defined.

Lemma long_video_zero_step_raises_witness :
  load_video 16 (video_of 33) 2 0
  = raise (ValueError "range() arg 3 must not be zero").
Proof.
  apply (long_video_zero_step_raises 16 (video_of 33) 2 0);
    [lia | simpl; lia | simpl; lia | lia].
Defined.

Lemma stride_matters_only_when_zero_witness :
  load_video 16 (video_of 33) 2 (-3) = load_video 16 (video_of 33) 2 1.
Proof.
  apply (stride_matters_only_when_zero 16 (video_of 33) 2 (-3)). left. lia.
Defined.

Lemma unit_sampling_clips_full_witness :
  Forall (λ clip : list Z, Z.of_nat (length clip) = 16)
    (yielded (load_video 16 (video_of 40) 1 16)).
Proof.
  apply (unit_sampling_clips_full 16 (video_of 40) 16);
    [lia | reflexivity | lia | simpl; lia | reflexivity].
Defined.

(** ** Checkpoint classifier, further properties *)

Lemma ckpt_state_is_filtered_state_dict_witness :
  state (encoder_only encoder_items) !! "encoder.x"
  = if Py.startswith "encoder.x" "discriminator" then None
    else trained_items !! "encoder.x".
Proof.
  apply (ckpt_state_is_filtered_state_dict (nested_file trained_items)
           registry
             encoder_names decoder_names fits_all "marlin_vit_base" "last.ckpt"
           (PDict (<["state_dict" := PDict trained_items]>
                     (<["epoch" := PTensor 7]> ∅)))
           trained_items (encoder_only encoder_items));
    vm_compute; reflexivity.
Defined.

Lemma pt_state_is_loaded_mapping_witness :
  raw_file encoder_items "model.pt"
  = inr (PDict (state (encoder_only encoder_items))).
Proof.
  apply (pt_state_is_loaded_mapping (raw_file encoder_items) registry
           encoder_names decoder_names fits_all "marlin_vit_base" "model.pt"
           (encoder_only encoder_items));
    vm_compute; reflexivity.
Defined.

Lemma ckpt_without_state_dict_witness :
  from_file bare_file registry
    encoder_names decoder_names fits_all "marlin_vit_base" "last.ckpt"
  = inl (KeyError "state_dict").
Proof.
  apply (ckpt_without_state_dict bare_file registry
    encoder_names decoder_names fits_all
           "marlin_vit_base" "last.ckpt" (<["epoch" := PTensor 7]> ∅));
    vm_compute; reflexivity.
Defined.

Lemma from_file_names_extension_witness :
  from_file (raw_file trained_items) registry
    encoder_names decoder_names fits_all "marlin_vit_base"
    ("model.tar" +:+ "." +:+ "gz")
  = inl (ValueError ("Unsupported file type: " +:+ "gz")).
Proof.
  apply (from_file_names_extension (raw_file trained_items) registry
           encoder_names decoder_names fits_all
           "marlin_vit_base" "model.tar" "gz");
    [|discriminate|discriminate].
  simpl. intros H. repeat (apply elem_of_cons in H as [H|H]; [discriminate|]).
  by apply elem_of_nil in H.
Defined.

Lemma from_file_dotless_path_witness :
  from_file (raw_file trained_items) registry
    encoder_names decoder_names fits_all "marlin_vit_base" "pt"
  = inl (ValueError ("Unsupported file type: " +:+ "pt")).
Proof.
  apply (from_file_dotless_path (raw_file trained_items) registry
    encoder_names decoder_names fits_all
           "marlin_vit_base" "pt").
  simpl. intros H. repeat (apply elem_of_cons in H as [H|H]; [discriminate|]).
  by apply elem_of_nil in H.
Defined.

Lemma clean_mapping_same_in_both_formats_witness :
  from_file (nested_file encoder_items) registry
    encoder_names decoder_names fits_all
    "marlin_vit_base" "last.ckpt"
  = from_file (raw_file encoder_items) registry
    encoder_names decoder_names fits_all
      "marlin_vit_base" "model.pt".
Proof.
  apply (clean_mapping_same_in_both_formats (raw_file encoder_items)
           (nested_file encoder_items) registry
             encoder_names decoder_names fits_all "marlin_vit_base"
           "model.pt" "last.ckpt" encoder_items
           (<["state_dict" := PDict encoder_items]>
              (<["epoch" := PTensor 7]> ∅)));
    try (vm_compute; reflexivity).
  intros key Hpre. apply lookup_insert_None. split; [apply lookup_empty|].
  intros <-. discriminate.
Defined.

(** ** [forward] and [extract_video] *)

Lemma encoder_only_checkpoint_refuses_forward_witness :
  forward demo_encoder_call demo_linear_call demo_decoder_call
    (encoder_only encoder_items) 5 (Some 1)
  = inl RuntimeError.
Proof.
  apply (encoder_only_checkpoint_refuses_forward (raw_file encoder_items)
           registry
             encoder_names decoder_names fits_all
             demo_encoder_call demo_linear_call
           demo_decoder_call "marlin_vit_base" "model.pt"
           (encoder_only encoder_items) 5 (Some 1));
    [vm_compute; reflexivity|].
  intros key Hpre. apply lookup_insert_None. split; [apply lookup_empty|].
  intros <-. discriminate.
Defined.

Lemma full_checkpoint_forward_witness :
  forward demo_encoder_call demo_linear_call demo_decoder_call
    (full_model full_items) 5 None
  = inl AssertionError
  ∧ ∃ proj dec,
      enc_dec_proj (full_model full_items) = Some proj
      ∧ decoder (full_model full_items) = Some dec
      ∧ forward demo_encoder_call demo_linear_call demo_decoder_call
          (full_model full_items) 5 (Some 1)
        = (x1 ← demo_encoder_call (encoder (full_model full_items))
                  (state (full_model full_items)) 5 1;
           x2 ← demo_linear_call proj (state (full_model full_items)) x1;
           demo_decoder_call dec (state (full_model full_items)) x2 1).
Proof.
  apply (full_checkpoint_forward (raw_file full_items) registry
    encoder_names decoder_names fits_all
           demo_encoder_call demo_linear_call demo_decoder_call
           "marlin_vit_base" "model.pt" (full_model full_items)
           "decoder.w" (PTensor 3) 5 1);
    vm_compute; reflexivity.
Defined.

Lemma extract_video_feature_per_clip_witness :
  extract_video demo_extract demo_inited demo_init demo_crop full_size
    demo_cat demo_mean demo_max (encoder_only encoder_items) false
    (video_of 20) false 2 16 "none" false None
  = match raised (load_video (clip_frames (encoder_only encoder_items))
                    (video_of 20) 2 16) with
    | Some e => inl e
    | None =>
        features ← torch_cat demo_cat [120];
        inr (reduce demo_mean demo_max "none" features)
    end.
Proof.
  apply (extract_video_feature_per_clip demo_extract demo_inited demo_init
           demo_crop full_size demo_cat demo_mean demo_max
           (encoder_only encoder_items) false (video_of 20) 2 16 "none"
           false None [120]);
    vm_compute; repeat constructor.
Defined.

Lemma extract_video_unknown_reduction_witness :
  extract_video demo_extract demo_inited demo_init demo_crop full_size
    demo_cat demo_mean demo_max (encoder_only encoder_items) false
    (video_of 33) true 2 16 "sum" false None
  = extract_video demo_extract demo_inited demo_init demo_crop full_size
      demo_cat demo_mean demo_max (encoder_only encoder_items) false
      (video_of 33) true 2 16 "none" false None.
Proof.
  apply (extract_video_unknown_reduction demo_extract demo_inited demo_init
           demo_crop full_size demo_cat demo_mean demo_max
           (encoder_only encoder_items) false (video_of 33) true 2 16 "sum"
           false None); discriminate.
Defined.

Lemma extract_video_wrong_size_witness :
  extract_video demo_extract demo_inited demo_init demo_crop small_size
    demo_cat demo_mean demo_max (encoder_only encoder_items) false
    (video_of 20) false 2 16 "none" false None
  = inl AssertionError.
Proof.
  apply (extract_video_wrong_size demo_extract demo_inited demo_init
           demo_crop small_size demo_cat demo_mean demo_max
           (encoder_only encoder_items) false (video_of 20) 2 16 "none"
           false None (seqZ 0 16) []);
    [vm_compute; reflexivity | discriminate].
Defined.

Lemma extract_video_zero_step_witness :
  extract_video demo_extract demo_inited demo_init demo_crop full_size
    demo_cat demo_mean demo_max (encoder_only encoder_items) false
    (video_of 33) true 2 0 "mean" false None
  = inl (ValueError "range() arg 3 must not be zero").
Proof.
  apply (extract_video_zero_step demo_extract demo_inited demo_init
           demo_crop full_size demo_cat demo_mean demo_max
           (encoder_only encoder_items) false (video_of 33) true 2 0 "mean"
           false None); simpl; lia.
Defined.

Lemma extract_video_empty_stream_witness :
  extract_video demo_extract demo_inited demo_init demo_crop full_size
    demo_cat demo_mean demo_max (encoder_only encoder_items) false
    no_frames false 2 16 "none" false None
  = inl (if decide (2 ≤ clip_frames (encoder_only encoder_items))
         then TypeError else RuntimeError).
Proof.
  apply (extract_video_empty_stream demo_extract demo_inited demo_init
           demo_crop full_size demo_cat demo_mean demo_max
           (encoder_only encoder_items) false no_frames false 2 16 "none"
           false None); [simpl; lia ..|reflexivity].
Defined.


(** ** The reductions *)


(** ** Checkpoint cache *)

Lemma from_online_loads_raw_mapping_witness :
  demo_load cached_fs
    (demo_joinpath ".marlin" (cache_file_name "marlin_vit_base" false))
  = inr (PDict (state (encoder_only encoder_items))).
Proof.
  apply (from_online_loads_raw_mapping registry demo_downloadable demo_mkdir
           demo_joinpath demo_exists demo_urlretrieve demo_load
             encoder_names decoder_names fits_all
           ∅ cached_fs "marlin_vit_base" false (encoder_only encoder_items)).
  - intros dir name H. unfold demo_joinpath.
    by do 2 apply endswith_app_l.
  - vm_compute. reflexivity.
Defined.

Lemma from_online_corrupt_cache_witness :
  from_online registry demo_downloadable demo_mkdir demo_joinpath
    demo_exists demo_urlretrieve demo_load
      encoder_names decoder_names fits_all corrupt_fs
    "marlin_vit_base" false
  = inl RuntimeError.
Proof.
  apply (from_online_corrupt_cache registry demo_downloadable demo_mkdir
           demo_joinpath demo_exists demo_urlretrieve demo_load
             encoder_names decoder_names fits_all
           corrupt_fs corrupt_fs "marlin_vit_base" false base_config
           ("https://host/full.pt", "https://host/encoder.pt") RuntimeError).
  - intros dir name H. unfold demo_joinpath.
    by do 2 apply endswith_app_l.
  - reflexivity.
  - reflexivity.
  - reflexivity.
  - vm_compute. reflexivity.
  - vm_compute. reflexivity.
Defined.

Lemma clean_cache_twice_witness :
  clean_cache demo_exists demo_rmtree ∅ false = inr (∅, []).
Proof.
  apply (clean_cache_twice demo_exists demo_rmtree cached_fs ∅ true false
           ["Marlin checkpoints cache cleaned."]).
  - intros fs0 fs1 [= <-]. reflexivity.
  - vm_compute. reflexivity.
Defined.
